(** * A contact book: shallow embedding of [main.py] and its properties

    The program keeps an [AddressBook] (a [UserDict] from contact name to
    [Record]), each record holding a [Name], a list of [Phone]s and a
    [Birthday].  Python strings are modelled as lists of Unicode code
    points, exceptions as an explicit [result] type, and the mutable book
    as a value threaded through the command handlers. *)

From stdpp Require Import gmap.
From Stdlib Require Import String Ascii DecimalString ZArith NArith List Bool Lia.
Import ListNotations.

Local Open Scope Z_scope.

(** ** Python runtime values *)

Module Py.

(** A [str] is a sequence of Unicode code points. *)
Definition codepoint := N.
Definition pystr := list codepoint.

(** String literals of the source, all ASCII. *)
Definition lit (s : string) : pystr :=
  List.map N_of_ascii (list_ascii_of_string s).

(** [a == b] on strings. *)
Fixpoint str_eqb (a b : pystr) : bool :=
  match a, b with
  | [], [] => true
  | x :: a', y :: b' => (x =? y)%N && str_eqb a' b'
  | _, _ => false
  end.

(** [sep.join(parts)] *)
Fixpoint join (sep : pystr) (parts : list pystr) : pystr :=
  match parts with
  | [] => []
  | [p] => p
  | p :: rest => p ++ sep ++ join sep rest
  end.

(** Decimal rendering of a non-negative integer, as [str(n)] does. *)
Definition str_of_N (n : N) : pystr :=
  lit (NilZero.string_of_uint (N.to_uint n)).

(** The values a caller may hand to a constructor. *)
Inductive pyval :=
| VNone
| VBool (b : bool)
| VInt (z : Z)
| VBytes (bs : list N)
| VStr (s : pystr).

(** [isinstance(v, str)] *)
Definition isinstance_str (v : pyval) : bool :=
  match v with VStr _ => true | _ => false end.

(** The exception classes the program raises or catches. *)
Inductive exn_class :=
  ValueError | IndexError | KeyError | OverflowError | UnpicklingError.

Record exn := Exn { cls : exn_class; msg : pystr }.

Inductive result (A : Type) :=
| Ok (a : A)
| Raise (e : exn).
Arguments Ok {A} a.
Arguments Raise {A} e.

Definition bind {A B} (r : result A) (k : A -> result B) : result B :=
  match r with
  | Ok a => k a
  | Raise e => Raise e
  end.

Definition raise {A} (c : exn_class) (m : pystr) : result A :=
  Raise (Exn c m).

(** Unicode decimal digits (general category Nd, Unicode 14): every range
    is a run of blocks of ten code points for the digits 0 to 9. *)
Definition decimal_ranges : list (N * N) :=
  [(0x30,0x39);(0x660,0x669);(0x6F0,0x6F9);(0x7C0,0x7C9);(0x966,0x96F);
   (0x9E6,0x9EF);(0xA66,0xA6F);(0xAE6,0xAEF);(0xB66,0xB6F);(0xBE6,0xBEF);
   (0xC66,0xC6F);(0xCE6,0xCEF);(0xD66,0xD6F);(0xDE6,0xDEF);(0xE50,0xE59);
   (0xED0,0xED9);(0xF20,0xF29);(0x1040,0x1049);(0x1090,0x1099);
   (0x17E0,0x17E9);(0x1810,0x1819);(0x1946,0x194F);(0x19D0,0x19D9);
   (0x1A80,0x1A89);(0x1A90,0x1A99);(0x1B50,0x1B59);(0x1BB0,0x1BB9);
   (0x1C40,0x1C49);(0x1C50,0x1C59);(0xA620,0xA629);(0xA8D0,0xA8D9);
   (0xA900,0xA909);(0xA9D0,0xA9D9);(0xA9F0,0xA9F9);(0xAA50,0xAA59);
   (0xABF0,0xABF9);(0xFF10,0xFF19);(0x104A0,0x104A9);(0x10D30,0x10D39);
   (0x11066,0x1106F);(0x110F0,0x110F9);(0x11136,0x1113F);(0x111D0,0x111D9);
   (0x112F0,0x112F9);(0x11450,0x11459);(0x114D0,0x114D9);(0x11650,0x11659);
   (0x116C0,0x116C9);(0x11730,0x11739);(0x118E0,0x118E9);(0x11950,0x11959);
   (0x11C50,0x11C59);(0x11D50,0x11D59);(0x11DA0,0x11DA9);(0x16A60,0x16A69);
   (0x16AC0,0x16AC9);(0x16B50,0x16B59);(0x1D7CE,0x1D7FF);(0x1E140,0x1E149);
   (0x1E2F0,0x1E2F9);(0x1E950,0x1E959);(0x1FBF0,0x1FBF9)]%N.

(** Code points with Numeric_Type=Digit that are not decimal digits
    (superscripts, subscripts, circled digits and the like). *)
Definition other_digit_ranges : list (N * N) :=
  [(0xB2,0xB3);(0xB9,0xB9);(0x1369,0x1371);(0x19DA,0x19DA);(0x2070,0x2070);
   (0x2074,0x2079);(0x2080,0x2089);(0x2460,0x2468);(0x2474,0x247C);
   (0x2488,0x2490);(0x24EA,0x24EA);(0x24F5,0x24FD);(0x24FF,0x24FF);
   (0x2776,0x277E);(0x2780,0x2788);(0x278A,0x2792);(0x10A40,0x10A43);
   (0x10E60,0x10E68);(0x11052,0x1105A);(0x1F100,0x1F10A)]%N.

Definition in_range (c : codepoint) (r : N * N) : bool :=
  (fst r <=? c)%N && (c <=? snd r)%N.

Definition in_ranges (rs : list (N * N)) (c : codepoint) : bool :=
  existsb (in_range c) rs.

(** The value of a decimal digit, [None] for any other code point. *)
Definition decimal_value (c : codepoint) : option Z :=
  match List.find (in_range c) decimal_ranges with
  | Some (lo, _) => Some (Z.of_N ((c - lo) mod 10))
  | None => None
  end.

(** The character test behind [str.isdigit]. *)
Definition cp_isdigit (c : codepoint) : bool :=
  in_ranges decimal_ranges c || in_ranges other_digit_ranges c.

(** [s.isdigit()]: every character is a digit and there is at least one. *)
Definition isdigit (s : pystr) : bool :=
  match s with
  | [] => false
  | _ => forallb cp_isdigit s
  end.

(** The ten ASCII characters 0 to 9. *)
Definition cp_ascii_digit (c : codepoint) : bool :=
  (0x30 <=? c)%N && (c <=? 0x39)%N.

(** Truth value of a string. *)
Definition str_truthy (s : pystr) : bool :=
  match s with [] => false | _ => true end.

(** Truth value of a value that is [None] or a string. *)
Definition opt_truthy (v : option pystr) : bool :=
  match v with Some s => str_truthy s | None => false end.

(** [str(v)] inside an f-string, for a value that is [None] or a string. *)
Definition format_opt (v : option pystr) : pystr :=
  match v with Some s => s | None => lit "None" end.

End Py.

Import Py.

Notation "'let*' x ':=' c1 'in' c2" := (Py.bind c1 (fun x => c2))
  (at level 10, x name, c1 at level 100, c2 at level 200).

(** ** The [datetime] library, as far as the program uses it *)

Module datetime.

(** A naive [datetime] value. *)
Record t := mk {
  year : Z; month : Z; day : Z;
  hour : Z; minute : Z; second : Z; microsecond : Z
}.

Definition MINYEAR : Z := 1.
Definition MAXYEAR : Z := 9999.
Definition MAXORDINAL : Z := 3652059.

Definition is_leap (y : Z) : bool :=
  (y mod 4 =? 0) && (negb (y mod 100 =? 0) || (y mod 400 =? 0)).

Definition days_in_month (y m : Z) : Z :=
  if m =? 2 then (if is_leap y then 29 else 28)
  else if (m =? 4) || (m =? 6) || (m =? 9) || (m =? 11) then 30
  else 31.

(** Number of days before January 1st of year [y]. *)
Definition days_before_year (y : Z) : Z :=
  let y' := y - 1 in
  y' * 365 + y' / 4 - y' / 100 + y' / 400.

(** Days of a common year before the first of month [m]. *)
Definition DAYS_BEFORE_MONTH (m : Z) : Z :=
  match m with
  | 1 => 0 | 2 => 31 | 3 => 59 | 4 => 90 | 5 => 120 | 6 => 151
  | 7 => 181 | 8 => 212 | 9 => 243 | 10 => 273 | 11 => 304 | _ => 334
  end.

Definition days_before_month (y m : Z) : Z :=
  DAYS_BEFORE_MONTH m + (if (2 <? m) && is_leap y then 1 else 0).

(** Proleptic Gregorian ordinal: 01.01.0001 is day 1. *)
Definition ymd2ord (y m d : Z) : Z :=
  days_before_year y + days_before_month y m + d.

(** The inverse, by cycles of 400, 100, 4 and 1 years. *)
Definition ord2ymd (n0 : Z) : Z * Z * Z :=
  let n := n0 - 1 in
  let n400 := n / 146097 in
  let n := n mod 146097 in
  let n100 := n / 36524 in
  let n := n mod 36524 in
  let n4 := n / 1461 in
  let n := n mod 1461 in
  let n1 := n / 365 in
  let n := n mod 365 in
  let y := n400 * 400 + 1 + n100 * 100 + n4 * 4 + n1 in
  if (n1 =? 4) || (n100 =? 4) then (y - 1, 12, 31)
  else
    let leapyear := (n1 =? 3) && (negb (n4 =? 24) || (n100 =? 3)) in
    let m := Z.shiftr (n + 50) 5 in
    let preceding :=
      DAYS_BEFORE_MONTH m + (if (2 <? m) && leapyear then 1 else 0) in
    if n <? preceding then
      let m' := m - 1 in
      let dim :=
        if m' =? 2 then (if leapyear then 29 else 28)
        else days_in_month 1 m' in
      (y, m', n - (preceding - dim) + 1)
    else (y, m, n - preceding + 1).

(** The fields a constructor accepts. *)
Definition valid_date (y m d : Z) : bool :=
  (MINYEAR <=? y) && (y <=? MAXYEAR) && (1 <=? m) && (m <=? 12) &&
  (1 <=? d) && (d <=? days_in_month y m).

Definition valid_time (dt : t) : bool :=
  (0 <=? hour dt) && (hour dt <? 24) && (0 <=? minute dt) && (minute dt <? 60) &&
  (0 <=? second dt) && (second dt <? 60) &&
  (0 <=? microsecond dt) && (microsecond dt <? 1000000).

Definition valid (dt : t) : bool :=
  valid_date (year dt) (month dt) (day dt) && valid_time dt.

Definition toordinal (dt : t) : Z := ymd2ord (year dt) (month dt) (day dt).

(** Monday is 0, Sunday is 6. *)
Definition weekday (dt : t) : Z := (toordinal dt + 6) mod 7.

(** Microseconds since midnight. *)
Definition time_of_day (dt : t) : Z :=
  ((hour dt * 60 + minute dt) * 60 + second dt) * 1000000 + microsecond dt.

Definition US_PER_DAY : Z := 86400 * 1000000.

(** [dt.replace(year=y)]: the constructor runs again and raises
    [ValueError] when the year is out of range or the day does not exist
    in that year (29 February). *)
Definition replace_year (dt : t) (y : Z) : result t :=
  if negb ((MINYEAR <=? y) && (y <=? MAXYEAR)) then
    raise ValueError
      (lit "year " ++ (if y <? 0 then lit "-" else []) ++
       str_of_N (Z.abs_N y) ++ lit " is out of range")
  else if negb ((1 <=? day dt) && (day dt <=? days_in_month y (month dt))) then
    raise ValueError (lit "day is out of range for month")
  else
    Ok (mk y (month dt) (day dt) (hour dt) (minute dt) (second dt)
           (microsecond dt)).

(** [dt + timedelta(days=n)] *)
Definition add_days (dt : t) (n : Z) : result t :=
  let o := toordinal dt + n in
  if (0 <? o) && (o <=? MAXORDINAL) then
    let '(y, m, d) := ord2ymd o in
    Ok (mk y m d (hour dt) (minute dt) (second dt) (microsecond dt))
  else raise OverflowError (lit "date value out of range").

(** [a < b]: the fields compared as a tuple. *)
Definition fields (dt : t) : list Z :=
  [year dt; month dt; day dt; hour dt; minute dt; second dt; microsecond dt].

Fixpoint lex_ltb (a b : list Z) : bool :=
  match a, b with
  | x :: a', y :: b' => (x <? y) || ((x =? y) && lex_ltb a' b')
  | _, _ => false
  end.

Definition ltb (a b : t) : bool := lex_ltb (fields a) (fields b).

(** [(a - b).days]: the difference is normalised so that its seconds and
    microseconds are non-negative, hence the floor. *)
Definition sub_days (a b : t) : Z :=
  ((toordinal a - toordinal b) * US_PER_DAY + (time_of_day a - time_of_day b))
  / US_PER_DAY.

(** *** [strptime] and [strftime] for the format ["%d.%m.%Y"]

    The library turns the format into the regular expression
    [(3[0-1]|[1-2]\d|0[1-9]|[1-9]| [1-9])\.(1[0-2]|0[1-9]|[1-9])\.(\d\d\d\d)],
    where [\d] is any Unicode decimal digit.  Each alternative below
    gives the number it reads and the rest of the input. *)

Definition DOT : codepoint := 0x2E%N.
Definition SPACE : codepoint := 0x20%N.
Definition ZERO : codepoint := 0x30%N.

Definition between (lo hi c : codepoint) : bool :=
  (lo <=? c)%N && (c <=? hi)%N.

Arguments between (lo hi c)%_N.

Definition ascii_val (c : codepoint) : Z := Z.of_N (c - ZERO).

(** One literal character followed by one in [[lo-hi]]. *)
Definition lit_then_range (l lo hi : codepoint) (s : pystr)
  : list (Z * pystr) :=
  match s with
  | a :: c :: rest =>
      if (a =? l)%N && between lo hi c
      then [(if (l =? SPACE)%N then ascii_val c
             else ascii_val a * 10 + ascii_val c, rest)]
      else []
  | _ => []
  end.

Arguments lit_then_range (l lo hi)%_N s.

(** [[1-2]\d] *)
Definition tens_then_digit (s : pystr) : list (Z * pystr) :=
  match s with
  | a :: c :: rest =>
      if between 0x31 0x32 a then
        match decimal_value c with
        | Some v => [(ascii_val a * 10 + v, rest)]
        | None => []
        end
      else []
  | _ => []
  end.

(** [[1-9]] *)
Definition one_nonzero (s : pystr) : list (Z * pystr) :=
  match s with
  | c :: rest => if between 0x31 0x39 c then [(ascii_val c, rest)] else []
  | _ => []
  end.

Definition day_alternatives (s : pystr) : list (Z * pystr) :=
  lit_then_range 0x33 0x30 0x31 s ++ tens_then_digit s ++
  lit_then_range 0x30 0x31 0x39 s ++ one_nonzero s ++
  lit_then_range SPACE 0x31 0x39 s.

Definition month_alternatives (s : pystr) : list (Z * pystr) :=
  lit_then_range 0x31 0x30 0x32 s ++ lit_then_range 0x30 0x31 0x39 s ++
  one_nonzero s.

(** [\d\d\d\d], read as a decimal number. *)
Definition four_digits (s : pystr) : option (Z * pystr) :=
  match s with
  | a :: b :: c :: d :: rest =>
      match decimal_value a, decimal_value b, decimal_value c,
            decimal_value d with
      | Some va, Some vb, Some vc, Some vd =>
          Some (((va * 10 + vb) * 10 + vc) * 10 + vd, rest)
      | _, _, _, _ => None
      end
  | _ => None
  end.

Definition expect_dot (s : pystr) : option pystr :=
  match s with
  | c :: rest => if (c =? DOT)%N then Some rest else None
  | [] => None
  end.

(** The first alternative, in order, for which the continuation matches. *)
Fixpoint first_match {A B} (alts : list A) (k : A -> option B) : option B :=
  match alts with
  | [] => None
  | a :: rest =>
      match k a with
      | Some b => Some b
      | None => first_match rest k
      end
  end.

(** The match of the whole pattern at the start of the input:
    day, month, year and the text left over. *)
Definition regex_match (s : pystr) : option (Z * Z * Z * pystr) :=
  first_match (day_alternatives s) (fun '(d, r1) =>
    match expect_dot r1 with
    | None => None
    | Some r2 =>
        first_match (month_alternatives r2) (fun '(m, r3) =>
          match expect_dot r3 with
          | None => None
          | Some r4 =>
              match four_digits r4 with
              | Some (y, r5) => Some (d, m, y, r5)
              | None => None
              end
          end)
    end).

(** [datetime.strptime(s, "%d.%m.%Y")]; [None] stands for the
    [ValueError] raised when the text does not match, when text is left
    over, or when the fields are not a date of the calendar. *)
Definition strptime (s : pystr) : option t :=
  match regex_match s with
  | Some (d, m, y, []) =>
      if valid_date y m d then Some (mk y m d 0 0 0 0) else None
  | _ => None
  end.

Definition digit_char (d : Z) : codepoint := (ZERO + Z.to_N (d mod 10))%N.

Definition two_digits (n : Z) : pystr := [digit_char (n / 10); digit_char n].

Definition four_digit_year (n : Z) : pystr :=
  [digit_char (n / 1000); digit_char (n / 100); digit_char (n / 10);
   digit_char n].

(** [dt.strftime("%d.%m.%Y")].  The year is written with four digits,
    which is its plain decimal form from the year 1000 on; for earlier
    years the width depends on the C library underneath. *)
Definition strftime (dt : t) : pystr :=
  two_digits (day dt) ++ [DOT] ++ two_digits (month dt) ++ [DOT] ++
  four_digit_year (year dt).

End datetime.

(** ** Fields *)

(** An instance of a class that defines neither [__bool__] nor [__len__]
    is true; this is the case of every class of the program. *)
Definition object_truthy {A : Type} (_ : A) : bool := true.

Module Name.
Record t := mk { value : pystr }.
End Name.

Module Birthday.
Record t := mk { value : option pystr }.

Definition FORMAT_ERROR : pystr := lit "Birthday must be in format DD.MM.YYYY".

(** [Birthday(value)]: a value that is [None] or empty is stored
    unchecked. *)
Definition init (value : option pystr) : result t :=
  match value with
  | Some s =>
      if str_truthy s then
        match datetime.strptime s with
        | Some _ => Ok (mk value)
        | None => raise ValueError FORMAT_ERROR
        end
      else Ok (mk value)
  | None => Ok (mk value)
  end.

(** [Field.__str__]: [str(self.value)]. *)
Definition str (self : t) : pystr := format_opt (value self).
End Birthday.

Module Phone.
Record t := mk { value : pystr }.

Definition DIGITS_ERROR : pystr :=
  lit "The phone number must be a string of 10 digits".

(** [Phone(number)] *)
Definition init (number : pyval) : result t :=
  match number with
  | VStr s =>
      if negb (isdigit s) || negb (Z.of_nat (length s) =? 10)
      then raise ValueError DIGITS_ERROR
      else Ok (mk s)
  | _ => raise ValueError DIGITS_ERROR
  end.
End Phone.

(** ** Record *)

Module Record.

Record t := mk {
  name : Name.t;
  phones : list Phone.t;
  birthday : Birthday.t
}.

(** [Record(name)]: no phones, and [Birthday(None)]. *)
Definition init (name : pystr) : t :=
  mk (Name.mk name) [] (Birthday.mk None).

Definition set_phones (self : t) (ps : list Phone.t) : t :=
  mk (name self) ps (birthday self).

Definition add_phone (self : t) (number : pyval) : result t :=
  let* phone := Phone.init number in
  Ok (set_phones self (phones self ++ [phone])).

Definition add_birthday (self : t) (value : option pystr) : result t :=
  let* b := Birthday.init value in
  Ok (mk (name self) (phones self) b).

(** The loop of [find_phone]: the first phone whose value is [number]. *)
Fixpoint find_in (ps : list Phone.t) (number : pystr) : option Phone.t :=
  match ps with
  | [] => None
  | phone :: rest =>
      if str_eqb (Phone.value phone) number then Some phone
      else find_in rest number
  end.

Definition find_phone (self : t) (number : pystr) : option Phone.t :=
  find_in (phones self) number.

(** The loop of [remove_phone]: the first phone whose value is [number]
    is taken out of the list and the loop returns at once. *)
Fixpoint remove_in (ps : list Phone.t) (number : pystr)
  : list Phone.t * bool :=
  match ps with
  | [] => ([], false)
  | phone :: rest =>
      if str_eqb (Phone.value phone) number then (rest, true)
      else let '(rest', removed) := remove_in rest number in
           (phone :: rest', removed)
  end.

Definition remove_phone (self : t) (number : pystr) : t * bool :=
  let '(ps, removed) := remove_in (phones self) number in
  (set_phones self ps, removed).

(** [edit_phone]: on success the method returns [True]; the record it
    leaves behind is the result here. *)
Definition edit_phone (self : t) (old_number : pystr) (new_number : pyval)
  : result t :=
  match find_phone self old_number with
  | Some found =>
      if object_truthy found then
        let* self1 := add_phone self new_number in
        Ok (fst (remove_phone self1 old_number))
      else raise ValueError (lit "Old number " ++ old_number ++ lit " not found")
  | None => raise ValueError (lit "Old number " ++ old_number ++ lit " not found")
  end.

(** [Record.__str__] *)
Definition str (self : t) : pystr :=
  let birthday_str :=
    if object_truthy (birthday self)
    then lit ", birthday: " ++ format_opt (Birthday.value (birthday self))
    else [] in
  lit "Contact name: " ++ Name.value (name self) ++ lit ", phones: " ++
  join (lit "; ") (List.map Phone.value (phones self)) ++ birthday_str.

(** The values of the phones, in order. *)
Definition numbers (self : t) : list pystr :=
  List.map Phone.value (phones self).

End Record.

(** ** AddressBook *)

Module AddressBook.

(** [self.data]: a dictionary from names to records, in insertion order. *)
Definition t := list (pystr * Record.t).

Definition empty : t := [].

(** [d.get(k, None)] *)
Fixpoint dict_get (d : t) (k : pystr) : option Record.t :=
  match d with
  | [] => None
  | (k', v) :: rest => if str_eqb k' k then Some v else dict_get rest k
  end.

(** [d[k] = v]: an existing key keeps its place, a new one goes last. *)
Fixpoint dict_set (d : t) (k : pystr) (v : Record.t) : t :=
  match d with
  | [] => [(k, v)]
  | (k', v') :: rest =>
      if str_eqb k' k then (k', v) :: rest
      else (k', v') :: dict_set rest k v
  end.

(** [del d[k]] *)
Fixpoint dict_del (d : t) (k : pystr) : t :=
  match d with
  | [] => []
  | (k', v') :: rest =>
      if str_eqb k' k then rest else (k', v') :: dict_del rest k
  end.

Definition values (self : t) : list Record.t := List.map snd self.

Definition add_record (self : t) (record : Record.t) : t :=
  dict_set self (Name.value (Record.name record)) record.

Definition find (self : t) (name : pystr) : option Record.t :=
  dict_get self name.

Definition delete (self : t) (name : pystr) : result t :=
  match dict_get self name with
  | Some _ => Ok (dict_del self name)
  | None =>
      raise ValueError (lit "Record with name " ++ name ++ lit " not found.")
  end.

(** One element of the list [get_upcoming_birthdays] returns: a
    dictionary with the keys ["name"] and ["birthday"]. *)
Record entry := mk_entry { entry_name : pystr; entry_birthday : pystr }.

(** Lines 102 to 105: the birthday in the year of [today], moved to the
    next year when it compares less than [today]. *)
Definition this_year_occurrence (today birthday_date : datetime.t)
  : result datetime.t :=
  let* this_year_birthday :=
    datetime.replace_year birthday_date (datetime.year today) in
  if datetime.ltb this_year_birthday today
  then datetime.replace_year this_year_birthday (datetime.year today + 1)
  else Ok this_year_birthday.

(** Lines 107 to 110: Saturday moves two days on, Sunday one. *)
Definition weekend_shift (this_year_birthday : datetime.t)
  : result datetime.t :=
  if datetime.weekday this_year_birthday =? 5
  then datetime.add_days this_year_birthday 2
  else if datetime.weekday this_year_birthday =? 6
  then datetime.add_days this_year_birthday 1
  else Ok this_year_birthday.

(** The body of the loop for one record; [upcoming] is the list built so
    far. *)
Definition visit (today : datetime.t) (record : Record.t)
  (upcoming : list entry) : result (list entry) :=
  let value := Birthday.value (Record.birthday record) in
  if object_truthy (Record.birthday record) && opt_truthy value then
    match value with
    | Some s =>
        match datetime.strptime s with
        | None => Ok upcoming
        | Some birthday_date =>
            let* this_year_birthday :=
              this_year_occurrence today birthday_date in
            let* this_year_birthday := weekend_shift this_year_birthday in
            let days_until_birthday :=
              datetime.sub_days this_year_birthday today in
            if (0 <=? days_until_birthday) && (days_until_birthday <=? 7)
            then Ok (upcoming ++
                     [mk_entry (Name.value (Record.name record))
                               (datetime.strftime this_year_birthday)])
            else Ok upcoming
        end
    | None => Ok upcoming
    end
  else Ok upcoming.

Fixpoint loop (today : datetime.t) (records : list Record.t)
  (upcoming : list entry) : result (list entry) :=
  match records with
  | [] => Ok upcoming
  | record :: rest =>
      let* upcoming' := visit today record upcoming in
      loop today rest upcoming'
  end.

(** [get_upcoming_birthdays], with the clock reading [today] made a
    parameter. *)
Definition get_upcoming_birthdays (today : datetime.t) (self : t)
  : result (list entry) :=
  loop today (values self) [].

End AddressBook.

(** ** Command handlers *)

(** The decorator: the wrapped function returns a text in every case.
    The handlers of the first three clauses are tried in this order. *)
Definition input_error {S : Type} (r : result pystr * S) : pystr * S :=
  (match fst r with
   | Ok v => v
   | Raise (Exn ValueError e) => lit "ValueError: " ++ e
   | Raise (Exn IndexError _) =>
       lit "Please provide the correct number of arguments."
   | Raise (Exn KeyError _) => lit "Contact not found."
   | Raise (Exn _ e) => e
   end, snd r).

(** The message of the [ValueError] raised when a list of [got] values
    is unpacked into [expected] names ([at_least]: the target list ends
    in a starred name). *)
Definition unpack_error (at_least : bool) (expected : N) (got : nat)
  : pystr :=
  if (N.of_nat got <? expected)%N then
    lit "not enough values to unpack (expected " ++
    (if at_least then lit "at least " else []) ++ str_of_N expected ++
    lit ", got " ++ str_of_N (N.of_nat got) ++ lit ")"
  else
    lit "too many values to unpack (expected " ++ str_of_N expected ++ lit ")".

Definition add_contact_body (args : list pystr) (book : AddressBook.t)
  : result pystr * AddressBook.t :=
  match args with
  | name :: phone :: _ =>
      let '(record, book, message) :=
        match AddressBook.find book name with
        | None =>
            let record := Record.init name in
            (record, AddressBook.add_record book record,
             lit "Contact added.")
        | Some record => (record, book, lit "Contact updated.")
        end in
      if str_truthy phone then
        match Record.add_phone record (VStr phone) with
        | Ok record' => (Ok message, AddressBook.dict_set book name record')
        | Raise e => (Raise e, book)
        end
      else (Ok message, book)
  | _ => (raise ValueError (unpack_error true 2 (length args)), book)
  end.

Definition add_contact (args : list pystr) (book : AddressBook.t)
  : pystr * AddressBook.t :=
  input_error (add_contact_body args book).

Definition change_contact_body (args : list pystr)
  (address_book : AddressBook.t) : result pystr * AddressBook.t :=
  match args with
  | [name; old_phone; new_phone] =>
      match AddressBook.find address_book name with
      | Some record =>
          match Record.edit_phone record old_phone (VStr new_phone) with
          | Ok record' =>
              (Ok (lit "Contact updated."),
               AddressBook.dict_set address_book name record')
          | Raise e => (Raise e, address_book)
          end
      | None =>
          (raise KeyError
             (lit "Contact with name " ++ name ++ lit " not found."),
           address_book)
      end
  | _ => (raise ValueError (unpack_error false 3 (length args)),
          address_book)
  end.

Definition change_contact (args : list pystr) (address_book : AddressBook.t)
  : pystr * AddressBook.t :=
  input_error (change_contact_body args address_book).

Definition show_phone_body (args : list pystr) (address_book : AddressBook.t)
  : result pystr * AddressBook.t :=
  match args with
  | name :: _ =>
      match AddressBook.find address_book name with
      | Some record =>
          (Ok (lit "Phone(s) for " ++ name ++ lit ": " ++
               join (lit ", ") (Record.numbers record)), address_book)
      | None => (raise KeyError [], address_book)
      end
  | [] => (raise IndexError (lit "list index out of range"), address_book)
  end.

Definition show_phone (args : list pystr) (address_book : AddressBook.t)
  : pystr * AddressBook.t :=
  input_error (show_phone_body args address_book).

Definition add_birthday_body (args : list pystr) (book : AddressBook.t)
  : result pystr * AddressBook.t :=
  match args with
  | [name; birthday] =>
      match AddressBook.find book name with
      | None =>
          (raise ValueError (lit "Contact " ++ name ++ lit " not found."),
           book)
      | Some record =>
          match Record.add_birthday record (Some birthday) with
          | Ok record' =>
              (Ok (lit "Birthday " ++ birthday ++ lit " added to contact " ++
                   name ++ lit "."),
               AddressBook.dict_set book name record')
          | Raise e => (Raise e, book)
          end
      end
  | _ => (raise ValueError (unpack_error false 2 (length args)), book)
  end.

Definition add_birthday (args : list pystr) (book : AddressBook.t)
  : pystr * AddressBook.t :=
  input_error (add_birthday_body args book).

Definition show_birthday_body (args : list pystr)
  (address_book : AddressBook.t) : result pystr * AddressBook.t :=
  match args with
  | name :: _ =>
      match AddressBook.find address_book name with
      | Some record =>
          if negb (object_truthy record)
             || negb (object_truthy (Record.birthday record))
          then (raise ValueError
                  (lit "No birthday found for contact " ++ name ++ lit "."),
                address_book)
          else (Ok (lit "Birthday of " ++ name ++ lit ": " ++
                    Birthday.str (Record.birthday record)), address_book)
      | None =>
          (raise ValueError
             (lit "No birthday found for contact " ++ name ++ lit "."),
           address_book)
      end
  | [] => (raise IndexError (lit "list index out of range"), address_book)
  end.

Definition show_birthday (args : list pystr) (address_book : AddressBook.t)
  : pystr * AddressBook.t :=
  input_error (show_birthday_body args address_book).

Definition show_upcoming_birthdays_body (today : datetime.t)
  (address_book : AddressBook.t) : result pystr :=
  let* upcoming := AddressBook.get_upcoming_birthdays today address_book in
  match upcoming with
  | [] => Ok (lit "No upcoming birthdays.")
  | _ =>
      Ok (join (lit (String "010" EmptyString))
            (List.map (fun item =>
               AddressBook.entry_name item ++ lit ": " ++
               AddressBook.entry_birthday item) upcoming))
  end.

Definition show_upcoming_birthdays (today : datetime.t)
  (address_book : AddressBook.t) : pystr :=
  fst (input_error (show_upcoming_birthdays_body today address_book, tt)).

(** ** Persistence *)

(** [pickle], the library that turns a book into the bytes of the file
    and back: the program relies on it and does not look into the bytes. *)
Class Pickle (blob : Type) := {
  dumps : AddressBook.t -> blob;
  loads : blob -> result AddressBook.t
}.

(** The files of the working directory, by name. *)
Abbreviation filesystem := (gmap pystr).

Definition DEFAULT_FILENAME : pystr := lit "addressbook.pkl".

Section Persistence.
Context {blob : Type} `{Pickle blob}.

(** [save_data]: the file is opened for writing, which creates it or
    empties it, and receives the pickled book. *)
Definition save_data (book : AddressBook.t) (filename : pystr)
  (fs : filesystem blob) : filesystem blob :=
  <[filename := dumps book]> fs.

(** [load_data]: the book unpickled from the file, or an empty book when
    opening raises [FileNotFoundError]; what [pickle.load] raises is not
    caught. *)
Definition load_data (filename : pystr) (fs : filesystem blob)
  : result AddressBook.t :=
  match fs !! filename with
  | Some content => loads content
  | None => Ok AddressBook.empty
  end.

End Persistence.

(** *** A byte format, to have an instance of [Pickle]

    Strings and lists are written with their length first. *)

Definition parser (A : Type) := list N -> option (A * list N).

Definition enc_str (s : pystr) : list N := N.of_nat (length s) :: s.

Definition dec_str : parser pystr := fun input =>
  match input with
  | n :: rest =>
      if (N.to_nat n <=? length rest)%nat
      then Some (firstn (N.to_nat n) rest, skipn (N.to_nat n) rest)
      else None
  | [] => None
  end.

Fixpoint enc_items {A} (enc : A -> list N) (l : list A) : list N :=
  match l with
  | [] => []
  | x :: l' => enc x ++ enc_items enc l'
  end.

Definition enc_list {A} (enc : A -> list N) (l : list A) : list N :=
  N.of_nat (length l) :: enc_items enc l.

Fixpoint dec_items {A} (dec : parser A) (n : nat) : parser (list A) :=
  fun input =>
    match n with
    | O => Some ([], input)
    | S n' =>
        match dec input with
        | Some (x, rest) =>
            match dec_items dec n' rest with
            | Some (l, rest') => Some (x :: l, rest')
            | None => None
            end
        | None => None
        end
    end.

Definition dec_list {A} (dec : parser A) : parser (list A) := fun input =>
  match input with
  | n :: rest => dec_items dec (N.to_nat n) rest
  | [] => None
  end.

Definition enc_birthday (b : Birthday.t) : list N :=
  match Birthday.value b with
  | None => [0%N]
  | Some s => 1%N :: enc_str s
  end.

Definition dec_birthday : parser Birthday.t := fun input =>
  match input with
  | 0%N :: rest => Some (Birthday.mk None, rest)
  | 1%N :: rest =>
      match dec_str rest with
      | Some (s, rest') => Some (Birthday.mk (Some s), rest')
      | None => None
      end
  | _ => None
  end.

Definition enc_phone (p : Phone.t) : list N := enc_str (Phone.value p).

Definition dec_phone : parser Phone.t := fun input =>
  match dec_str input with
  | Some (s, rest) => Some (Phone.mk s, rest)
  | None => None
  end.

Definition enc_record (r : Record.t) : list N :=
  enc_str (Name.value (Record.name r)) ++
  enc_list enc_phone (Record.phones r) ++
  enc_birthday (Record.birthday r).

Definition dec_record : parser Record.t := fun input =>
  match dec_str input with
  | Some (n, rest) =>
      match dec_list dec_phone rest with
      | Some (ps, rest') =>
          match dec_birthday rest' with
          | Some (b, rest'') => Some (Record.mk (Name.mk n) ps b, rest'')
          | None => None
          end
      | None => None
      end
  | None => None
  end.

Definition enc_item (kv : pystr * Record.t) : list N :=
  enc_str (fst kv) ++ enc_record (snd kv).

Definition dec_item : parser (pystr * Record.t) := fun input =>
  match dec_str input with
  | Some (k, rest) =>
      match dec_record rest with
      | Some (r, rest') => Some ((k, r), rest')
      | None => None
      end
  | None => None
  end.

Definition UNPICKLING_ERROR : exn :=
  Exn UnpicklingError (lit "pickle data was truncated").

#[export] Instance length_prefixed : Pickle (list N) := {
  dumps book := enc_list enc_item book;
  loads content :=
    match dec_list dec_item content with
    | Some (book, []) => Ok book
    | _ => Raise UNPICKLING_ERROR
    end
}.

(** ** The remaining methods *)

(** [Birthday.__repr__] *)
Definition Birthday_repr (self : Birthday.t) : pystr :=
  if opt_truthy (Birthday.value self)
  then format_opt (Birthday.value self)
  else lit "No birthday".

Definition NEWLINE : pystr := lit (String "010" EmptyString).

(** [AddressBook.__str__] *)
Definition AddressBook_str (self : AddressBook.t) : pystr :=
  match self with
  | [] => lit "The address book is empty."
  | _ => join NEWLINE (List.map Record.str (AddressBook.values self))
  end.

Definition show_all_phones_body (address_book : AddressBook.t)
  : result pystr :=
  match address_book with
  | [] => Ok (lit "No contacts available.")
  | _ => Ok (join NEWLINE (List.map Record.str (AddressBook.values address_book)))
  end.

Definition show_all_phones (address_book : AddressBook.t) : pystr :=
  fst (input_error (show_all_phones_body address_book, tt)).

(** ** Reading a command *)

(** The characters [str.isspace] accepts (Unicode 14); [split] and
    [strip] without argument cut at these. *)
Definition whitespace_ranges : list (N * N) :=
  [(0x9,0xD);(0x1C,0x20);(0x85,0x85);(0xA0,0xA0);(0x1680,0x1680);
   (0x2000,0x200A);(0x2028,0x2029);(0x202F,0x202F);(0x205F,0x205F);
   (0x3000,0x3000)]%N.

Definition cp_isspace (c : codepoint) : bool := in_ranges whitespace_ranges c.

(** [s.split()]: the maximal runs of characters that are not whitespace;
    [word] holds the run being read, last character first. *)
Fixpoint split_from (word : pystr) (s : pystr) : list pystr :=
  match s with
  | [] => match word with [] => [] | _ => [rev word] end
  | c :: rest =>
      if cp_isspace c then
        match word with
        | [] => split_from [] rest
        | _ => rev word :: split_from [] rest
        end
      else split_from (c :: word) rest
  end.

Definition split (s : pystr) : list pystr := split_from [] s.

Fixpoint lstrip (s : pystr) : pystr :=
  match s with
  | c :: rest => if cp_isspace c then lstrip rest else s
  | [] => []
  end.

(** [s.strip()] *)
Definition strip (s : pystr) : pystr := rev (lstrip (rev (lstrip s))).

(** What [parse_input] returns: the tuple [(cmd, *args)], or the text the
    decorator makes of an exception. *)
Inductive parsed :=
| Tuple (cmd : pystr) (args : list pystr)
| Text (message : pystr).

(** What [main] ends with: the command [close] or [exit], the
    [EOFError] of [input] when the input is used up, or another exception
    that nothing catches. *)
Inductive ending :=
| GoodBye
| EndOfInput
| Uncaught (e : exn).

Definition PROMPT : pystr := lit "Enter a command: ".

(** [print(s)] writes [s] and a line end. *)
Definition print (s : pystr) : pystr := s ++ NEWLINE.

Section CommandLoop.

(** [str.lower], the case mapping of the library. *)
Context (lower : pystr -> pystr).
Context {blob : Type} `{Pickle blob}.

Definition parse_input (user_input : pystr) : parsed :=
  match split user_input with
  | cmd :: args => Tuple (lower (strip cmd)) args
  | [] =>
      Text (fst (input_error
                   (raise ValueError (unpack_error true 1 0), tt)))
  end.

(** [command, *args = parse_input(user_input)]: a tuple gives its first
    item and the rest; a text gives its first character and the list of
    the others. *)
Definition unpack_command (p : parsed) : result (pystr * list pystr) :=
  match p with
  | Tuple cmd args => Ok (cmd, args)
  | Text (c :: rest) => Ok ([c], List.map (fun x => [x]) rest)
  | Text [] => raise ValueError (unpack_error true 1 0)
  end.

(** The chain of tests of the loop for one command: [None] for [close]
    and [exit], else the text to print and the book afterwards.  [now] is
    the reading of the clock when the command runs. *)
Definition dispatch (now : datetime.t) (command : pystr) (args : list pystr)
  (book : AddressBook.t) : option (pystr * AddressBook.t) :=
  if str_eqb command (lit "close") || str_eqb command (lit "exit") then None
  else if str_eqb command (lit "hello")
  then Some (lit "How can I help you?", book)
  else if str_eqb command (lit "add") then Some (add_contact args book)
  else if str_eqb command (lit "change") then Some (change_contact args book)
  else if str_eqb command (lit "phone") then Some (show_phone args book)
  else if str_eqb command (lit "all") then Some (show_all_phones book, book)
  else if str_eqb command (lit "birthdays")
  then Some (show_upcoming_birthdays now book, book)
  else if str_eqb command (lit "add-birthday")
  then Some (add_birthday args book)
  else if str_eqb command (lit "show-birthday")
  then Some (show_birthday args book)
  else Some (lit "Invalid command.", book).

(** The [while True] loop over the lines of the input, each with the
    clock reading of its moment; [out] is what was written so far. *)
Fixpoint main_loop (inputs : list (pystr * datetime.t)) (book : AddressBook.t)
  (fs : filesystem blob) (out : list pystr)
  : ending * AddressBook.t * filesystem blob * list pystr :=
  match inputs with
  | [] => (EndOfInput, book, fs, out ++ [PROMPT])
  | (user_input, now) :: rest =>
      match unpack_command (parse_input user_input) with
      | Raise e => (Uncaught e, book, fs, out ++ [PROMPT])
      | Ok (command, args) =>
          match dispatch now command args book with
          | None =>
              (GoodBye, book, save_data book DEFAULT_FILENAME fs,
               out ++ [PROMPT; print (lit "Good bye!")])
          | Some (text, book') =>
              main_loop rest book' fs (out ++ [PROMPT; print text])
          end
      end
  end.

(** [main]: the ending, the book in memory at that moment, the files and
    the output. *)
Definition main (inputs : list (pystr * datetime.t)) (fs : filesystem blob)
  : ending * AddressBook.t * filesystem blob * list pystr :=
  match load_data DEFAULT_FILENAME fs with
  | Raise e => (Uncaught e, AddressBook.empty, fs, [])
  | Ok book =>
      main_loop inputs book fs [print (lit "Welcome to the assistant bot!")]
  end.

End CommandLoop.

(** The case mapping on the letters A to Z, other characters kept: what
    [str.lower] does to a text of ASCII characters. *)
Definition ascii_lower (s : pystr) : pystr :=
  List.map (fun c : codepoint =>
              if ((0x41 <=? c) && (c <=? 0x5A))%N then (c + 32)%N else c) s.

(** ** Vocabulary of the statements *)

(** What [Phone] accepts: a string of ten characters, each a digit in
    the sense of [str.isdigit]. *)
Definition ten_digits (s : pystr) : Prop :=
  length s = 10%nat /\ Forall (fun c => cp_isdigit c = true) s.

(** The reading of the specification: ten characters from 0 to 9. *)
Definition ten_ascii_digits (s : pystr) : Prop :=
  length s = 10%nat /\ Forall (fun c => cp_ascii_digit c = true) s.

(** Ten Arabic-Indic digits, U+0661 to U+0669 and U+0660. *)
Definition arabic_indic_number : pystr :=
  [0x661; 0x662; 0x663; 0x664; 0x665; 0x666; 0x667; 0x668; 0x669; 0x660]%N.

Definition number_a : pystr := lit "1234567890".
Definition number_b : pystr := lit "0987654321".

(** The record of a contact to whom the same number was added twice. *)
Definition record_with_duplicate : Record.t :=
  Record.mk (Name.mk (lit "alice")) [Phone.mk number_a; Phone.mk number_a]
    (Birthday.mk None).

(** The record [add alice 1234567890] creates: one phone, no birthday. *)
Definition record_without_birthday : Record.t :=
  Record.mk (Name.mk (lit "alice")) [Phone.mk number_a] (Birthday.mk None).

(** A record with the given name and birthday text, and no phone. *)
Definition record_born (name birthday : pystr) : Record.t :=
  Record.mk (Name.mk name) [] (Birthday.mk (Some birthday)).

(** A book of one record. *)
Definition book_of (record : Record.t) : AddressBook.t :=
  AddressBook.add_record AddressBook.empty record.

(** A clock reading on Monday 10 June 2024. *)
Definition on_2024_06_10 (h mi s us : Z) : datetime.t :=
  datetime.mk 2024 6 10 h mi s us.

(** Two contacts, the second born on a 29 February. *)
Definition book_with_leap_day : AddressBook.t :=
  AddressBook.add_record
    (book_of (record_born (lit "alice") (lit "12.06.1990")))
    (record_born (lit "bob") (lit "29.02.2000")).

(** Saturday 10 June 2023, nine in the morning. *)
Definition morning_2023_06_10 : datetime.t := datetime.mk 2023 6 10 9 0 0 0.

(** [ord2ymd] undone by [ymd2ord] at the ordinal [n]. *)
Definition ordinal_roundtrip (n : Z) : bool :=
  let '(y, m, d) := datetime.ord2ymd n in
  (datetime.ymd2ord y m d =? n) && (1 <=? m) && (m <=? 12) && (1 <=? d).

(** A test on the [2^k] integers from [lo] on. *)
Fixpoint holds_on (f : Z -> bool) (k : nat) (lo : Z) : bool :=
  match k with
  | O => f lo
  | S k' => holds_on f k' lo && holds_on f k' (lo + 2 ^ Z.of_nat k')
  end.

(** The names under which a book holds its records, in order. *)
Definition keys (book : AddressBook.t) : list pystr := List.map fst book.

(** Every phone of the record is a string of ten digits. *)
Definition phones_valid (r : Record.t) : Prop :=
  Forall (fun p => ten_digits (Phone.value p)) (Record.phones r).

(** The birthday is absent, empty, or a text that [strptime] reads. *)
Definition birthday_valid (r : Record.t) : Prop :=
  match Birthday.value (Record.birthday r) with
  | Some s => s = [] \/ exists dt, datetime.strptime s = Some dt
  | None => True
  end.

(** A book as the program builds it: a dictionary (no name twice) whose
    records sit under their own name and hold validated fields. *)
Definition book_valid (book : AddressBook.t) : Prop :=
  NoDup (keys book) /\
  Forall (fun kv => Name.value (Record.name (snd kv)) = fst kv /\
                    phones_valid (snd kv) /\ birthday_valid (snd kv)) book.

(** The birthday of the record reads as a 29 February. *)
Definition born_on_leap_day (r : Record.t) : Prop :=
  exists s dt,
    Birthday.value (Record.birthday r) = Some s /\
    datetime.strptime s = Some dt /\
    datetime.month dt = 2 /\ datetime.day dt = 29.

(** A date the program may report at the moment [today]: a working day,
    from today's date to eight days later. *)
Definition reportable (today : datetime.t) (text : pystr) : Prop :=
  exists shifted,
    text = datetime.strftime shifted /\
    0 <= datetime.weekday shifted <= 4 /\
    datetime.toordinal today <= datetime.toordinal shifted
      <= datetime.toordinal today + 8.

(** The words the loop knows. *)
Definition COMMANDS : list pystr :=
  [lit "close"; lit "exit"; lit "hello"; lit "add"; lit "change";
   lit "phone"; lit "all"; lit "birthdays"; lit "add-birthday";
   lit "show-birthday"].

(** Two lines typed on the morning of 10 June 2023: a contact, then
    [exit]. *)
Definition add_then_exit : list (pystr * datetime.t) :=
  [(lit "add alice 1234567890", morning_2023_06_10);
   (lit "exit", morning_2023_06_10)].

(** No character of the word is whitespace, and the word is not empty. *)
Definition is_token (w : pystr) : Prop :=
  w <> [] /\ Forall (fun c => cp_isspace c = false) w.

(** * Properties *)

(** ** Dates *)

Example strptime_15_06_1990 :
  datetime.strptime (lit "15.06.1990") = Some (datetime.mk 1990 6 15 0 0 0 0).
Proof. reflexivity. Qed.

(** Days and months of one digit, a day padded with a space, and
    decimal digits of other scripts are read too. *)
Example strptime_short_fields :
  datetime.strptime (lit "5.6.1990") = Some (datetime.mk 1990 6 5 0 0 0 0) /\
  datetime.strptime (lit " 5.06.1990") = Some (datetime.mk 1990 6 5 0 0 0 0) /\
  datetime.strptime
    ([0x31; 0x665] ++ lit ".06." ++ [0x661; 0x669; 0x669; 0x660])%N
  = Some (datetime.mk 1990 6 15 0 0 0 0).
Proof. repeat split; reflexivity. Qed.

Example strptime_rejects :
  datetime.strptime (lit "31.02.2020") = None /\
  datetime.strptime (lit "15.06.19901") = None /\
  datetime.strptime (lit "15-06-1990") = None /\
  datetime.strptime (lit "01.01.0000") = None /\
  datetime.strptime (lit "32.01.2000") = None.
Proof. repeat split; reflexivity. Qed.

Example weekday_2024_06_10 :
  datetime.weekday (datetime.mk 2024 6 10 0 0 0 0) = 0 /\
  datetime.weekday (datetime.mk 2024 6 15 0 0 0 0) = 5 /\
  datetime.add_days (datetime.mk 2024 6 15 0 0 0 0) 2
    = Ok (datetime.mk 2024 6 17 0 0 0 0) /\
  datetime.add_days (datetime.mk 2024 12 31 0 0 0 0) 1
    = Ok (datetime.mk 2025 1 1 0 0 0 0) /\
  datetime.add_days (datetime.mk 2024 2 28 0 0 0 0) 1
    = Ok (datetime.mk 2024 2 29 0 0 0 0) /\
  datetime.toordinal (datetime.mk 9999 12 31 0 0 0 0) = datetime.MAXORDINAL.
Proof. repeat split; reflexivity. Qed.

(** ** Strings *)

Lemma str_eqb_eq (a b : pystr) : str_eqb a b = true <-> a = b.
Proof.
  revert b; induction a as [|x a IH]; intros [|y b]; simpl;
    try (split; [discriminate | congruence]); try tauto.
  rewrite andb_true_iff, N.eqb_eq, IH. split.
  - intros [-> ->]; reflexivity.
  - intros H; injection H; auto.
Qed.

Lemma str_eqb_refl (a : pystr) : str_eqb a a = true.
Proof. apply str_eqb_eq; reflexivity. Qed.

Lemma str_eqb_neq (a b : pystr) : str_eqb a b = false <-> a <> b.
Proof.
  rewrite <- str_eqb_eq. destruct (str_eqb a b); split; congruence.
Qed.

(** ** Phone *)

Lemma isdigit_Forall (s : pystr) :
  isdigit s = true <-> s <> [] /\ Forall (fun c => cp_isdigit c = true) s.
Proof.
  destruct s as [|c s].
  - simpl. split; [discriminate | intros [H _]; congruence].
  - unfold isdigit. rewrite forallb_forall, Forall_forall.
    split; [intros H; split; [discriminate | exact H] | intros [_ H]; exact H].
Qed.

Lemma ascii_digit_isdigit (c : codepoint) :
  cp_ascii_digit c = true -> cp_isdigit c = true.
Proof.
  unfold cp_ascii_digit, cp_isdigit. intros H.
  apply orb_true_iff; left.
  unfold in_ranges, decimal_ranges. simpl existsb.
  unfold in_range at 1. simpl fst; simpl snd. rewrite H. reflexivity.
Qed.

Lemma ten_ascii_digits_ten_digits (s : pystr) :
  ten_ascii_digits s -> ten_digits s.
Proof.
  intros [Hlen Hall]; split; [exact Hlen|].
  eapply Forall_impl; [|exact Hall]. intros c; apply ascii_digit_isdigit.
Qed.

Lemma Phone_init_accepts (s : pystr) :
  ten_digits s -> Phone.init (VStr s) = Ok (Phone.mk s).
Proof.
  intros [Hlen Hall]. unfold Phone.init.
  assert (Hd : isdigit s = true).
  { apply isdigit_Forall; split; [|exact Hall].
    intros ->; discriminate. }
  rewrite Hd, Hlen. reflexivity.
Qed.

Lemma Phone_init_rejects (s : pystr) :
  ~ ten_digits s ->
  Phone.init (VStr s) = Raise (Exn ValueError Phone.DIGITS_ERROR).
Proof.
  intros Hn. unfold Phone.init.
  destruct (isdigit s) eqn:Hd; [|reflexivity].
  destruct (Z.of_nat (length s) =? 10) eqn:Hl; [|reflexivity].
  exfalso; apply Hn. split.
  - apply Z.eqb_eq in Hl. lia.
  - apply isdigit_Forall in Hd. tauto.
Qed.

(** [Phone] raises one exception only. *)
Lemma Phone_init_Raise (p : pyval) (e : exn) :
  Phone.init p = Raise e -> e = Exn ValueError Phone.DIGITS_ERROR.
Proof.
  destruct p as [| b | z | bs | s]; simpl; try (intros H; injection H as <-; reflexivity).
  destruct (negb (isdigit s) || negb (Z.of_nat (length s) =? 10));
    intros H; [injection H as <-; reflexivity | discriminate H].
Qed.

(** C3, as stated, fails: a string of ten Arabic-Indic digits is not made
    of ASCII digits, and [Phone] accepts it. *)
Lemma Phone_accepts_non_ascii_digits :
  Phone.init (VStr arabic_indic_number) = Ok (Phone.mk arabic_indic_number) /\
  length arabic_indic_number = 10%nat /\
  Forall (fun c => cp_ascii_digit c = false) arabic_indic_number /\
  (ten_ascii_digits arabic_indic_number -> False).
Proof.
  split; [reflexivity|]. split; [reflexivity|]. split.
  - repeat constructor.
  - intros [_ H]. inversion H as [|c l Hc _]. discriminate Hc.
Qed.

(** C3 (amended): [Phone(p)] succeeds exactly when [p] is a string of ten
    characters that [str.isdigit] accepts (the ASCII digits among them),
    and then stores [p]; on every other input it raises [ValueError] with
    the message "The phone number must be a string of 10 digits". *)
Theorem Phone_init_spec (p : pyval) :
  match Phone.init p with
  | Ok phone =>
      exists s, p = VStr s /\ ten_digits s /\ phone = Phone.mk s
  | Raise e =>
      e = Exn ValueError
            (lit "The phone number must be a string of 10 digits") /\
      (forall s, p = VStr s -> ~ ten_digits s)
  end.
Proof.
  destruct p as [| b | z | bs | s];
    try (simpl; split; [reflexivity | intros s Hs; discriminate Hs]).
  destruct (Phone.init (VStr s)) as [phone|e] eqn:E.
  - unfold Phone.init in E.
    destruct (isdigit s) eqn:Hd; [|discriminate E].
    destruct (Z.of_nat (length s) =? 10) eqn:Hl; [|discriminate E].
    simpl in E. injection E as <-.
    exists s. split; [reflexivity|]. split; [|reflexivity].
    split; [apply Z.eqb_eq in Hl; lia | apply isdigit_Forall in Hd; tauto].
  - split.
    + unfold Phone.init in E.
      destruct (negb (isdigit s) || negb (Z.of_nat (length s) =? 10));
        [injection E as <-; reflexivity | discriminate E].
    + intros s' Hs' Hten. injection Hs' as <-.
      rewrite (Phone_init_accepts s Hten) in E. discriminate E.
Qed.

(** Every string of ten ASCII digits is accepted and stored as it is. *)
Lemma Phone_init_ascii (s : pystr) :
  ten_ascii_digits s -> Phone.init (VStr s) = Ok (Phone.mk s).
Proof.
  intros H. apply Phone_init_accepts, ten_ascii_digits_ten_digits, H.
Qed.

(** ** Record *)

Lemma find_in_None (ps : list Phone.t) (number : pystr) :
  Record.find_in ps number = None <-> ~ In number (List.map Phone.value ps).
Proof.
  induction ps as [|phone rest IH]; simpl.
  - tauto.
  - destruct (str_eqb (Phone.value phone) number) eqn:E.
    + apply str_eqb_eq in E. split; [discriminate | tauto].
    + apply str_eqb_neq in E. rewrite IH. tauto.
Qed.

(** [remove_in] takes out the first phone with the given value. *)
Lemma remove_in_first (ps : list Phone.t) (number : pystr) :
  In number (List.map Phone.value ps) ->
  exists before phone after,
    ps = before ++ phone :: after /\
    Phone.value phone = number /\
    ~ In number (List.map Phone.value before) /\
    Record.remove_in ps number = (before ++ after, true).
Proof.
  induction ps as [|phone rest IH]; simpl; [tauto|].
  intros Hin. destruct (str_eqb (Phone.value phone) number) eqn:E.
  - apply str_eqb_eq in E. exists [], phone, rest. simpl. tauto.
  - apply str_eqb_neq in E.
    destruct Hin as [Hin | Hin]; [congruence|].
    destruct (IH Hin) as (before & ph & after & -> & Hv & Hnot & Hrem).
    exists (phone :: before), ph, after. rewrite Hrem. simpl.
    repeat split; try assumption. intros [H | H]; [congruence | tauto].
Qed.

Lemma remove_in_absent (ps : list Phone.t) (number : pystr) :
  ~ In number (List.map Phone.value ps) ->
  Record.remove_in ps number = (ps, false).
Proof.
  induction ps as [|phone rest IH]; simpl; [reflexivity|].
  intros Hn. destruct (str_eqb (Phone.value phone) number) eqn:E.
  - apply str_eqb_eq in E. tauto.
  - rewrite IH by tauto. reflexivity.
Qed.

(** C4, as stated, fails: with the number stored twice, the edit removes
    one copy only, and the old number is still in the list. *)
Lemma edit_phone_keeps_duplicate :
  In number_a (Record.numbers record_with_duplicate) /\
  Phone.init (VStr number_b) = Ok (Phone.mk number_b) /\
  exists self',
    Record.edit_phone record_with_duplicate number_a (VStr number_b)
      = Ok self' /\
    Record.numbers self' = [number_a; number_b] /\
    In number_b (Record.numbers self') /\
    In number_a (Record.numbers self').
Proof.
  split; [left; reflexivity|]. split; [reflexivity|].
  eexists. split; [reflexivity|]. split; [reflexivity|].
  split; [right; left; reflexivity | left; reflexivity].
Qed.

(** With [old] in the list and a valid [new]: [new] is appended, then the
    first occurrence of [old] is removed. *)
Lemma edit_phone_present (self : Record.t) (old : pystr) (new : pyval)
  (phone : Phone.t) :
  In old (Record.numbers self) ->
  Phone.init new = Ok phone ->
  exists before after self',
    Record.numbers self = before ++ old :: after /\
    ~ In old before /\
    Record.edit_phone self old new = Ok self' /\
    Record.numbers self' = before ++ after ++ [Phone.value phone] /\
    Record.name self' = Record.name self /\
    Record.birthday self' = Record.birthday self /\
    In (Phone.value phone) (Record.numbers self') /\
    (In old (Record.numbers self') <->
     In old after \/ Phone.value phone = old).
Proof.
  intros Hin Hnew.
  unfold Record.edit_phone, Record.find_phone.
  destruct (Record.find_in (Record.phones self) old) as [found|] eqn:Hfind.
  2:{ apply find_in_None in Hfind. contradiction. }
  simpl. unfold Record.add_phone. rewrite Hnew. simpl.
  unfold Record.remove_phone. simpl.
  assert (Hin' : In old (List.map Phone.value (Record.phones self ++ [phone]))).
  { rewrite List.map_app, in_app_iff. left. exact Hin. }
  destruct (remove_in_first _ _ Hin')
    as (before & ph & after' & Hsplit & Hv & Hnot & Hrem).
  rewrite Hrem. simpl.
  (* the first occurrence lies in the original part of the list *)
  destruct (remove_in_first _ _ Hin)
    as (b0 & ph0 & a0 & Hs0 & Hv0 & Hnot0 & _).
  assert (Hbefore : before = b0 /\ ph :: after' = ph0 :: a0 ++ [phone]).
  { rewrite Hs0 in Hsplit. rewrite <- List.app_assoc in Hsplit. simpl in Hsplit.
    clear - Hsplit Hv Hv0 Hnot Hnot0.
    revert before Hsplit Hnot.
    induction b0 as [|x b0 IH]; intros [|y before] Hsplit Hnot; simpl in *.
    - split; [reflexivity | congruence].
    - exfalso. injection Hsplit as -> _. apply Hnot. left. exact Hv0.
    - exfalso. injection Hsplit as -> _. apply Hnot0. left. exact Hv.
    - injection Hsplit as -> Hsplit.
      destruct (IH ltac:(tauto) before Hsplit ltac:(tauto)) as [-> E].
      split; [reflexivity | exact E]. }
  destruct Hbefore as [-> Hafter]. injection Hafter as -> ->.
  exists (List.map Phone.value b0), (List.map Phone.value a0),
    (Record.set_phones (Record.set_phones self (Record.phones self ++ [phone]))
       (b0 ++ a0 ++ [phone])).
  unfold Record.numbers. simpl.
  rewrite Hs0, ?List.map_app. simpl. rewrite ?List.map_app. simpl. rewrite ?Hv0.
  repeat split; try assumption; try reflexivity.
  - rewrite !in_app_iff. right; right; left; reflexivity.
  - rewrite !in_app_iff. simpl. intros [H | [H | [H | []]]]; tauto.
  - rewrite !in_app_iff. simpl. intros [H | H]; tauto.
Qed.

Lemma edit_phone_absent (self : Record.t) (old : pystr) (new : pyval) :
  ~ In old (Record.numbers self) ->
  Record.edit_phone self old new
    = Raise (Exn ValueError (lit "Old number " ++ old ++ lit " not found")).
Proof.
  intros Hn. unfold Record.edit_phone, Record.find_phone.
  apply find_in_None in Hn. rewrite Hn. reflexivity.
Qed.

(** C4 (amended): when the phone list contains [old] and [new] is a valid
    number, [edit_phone] appends [new] and removes the first occurrence of
    [old] only; the result contains [new], and it contains [old] exactly
    when [old] occurred more than once or [new] is [old].  When the list
    does not contain [old], the call raises [ValueError] with the message
    "Old number {old} not found". *)
Theorem edit_phone_spec (self : Record.t) (old : pystr) (new : pyval) :
  (In old (Record.numbers self) ->
   forall phone, Phone.init new = Ok phone ->
   exists before after self',
     Record.numbers self = before ++ old :: after /\
     ~ In old before /\
     Record.edit_phone self old new = Ok self' /\
     Record.numbers self' = before ++ after ++ [Phone.value phone] /\
     Record.name self' = Record.name self /\
     Record.birthday self' = Record.birthday self /\
     In (Phone.value phone) (Record.numbers self') /\
     (In old (Record.numbers self') <->
      In old after \/ Phone.value phone = old)) /\
  (~ In old (Record.numbers self) ->
   Record.edit_phone self old new
     = Raise (Exn ValueError (lit "Old number " ++ old ++ lit " not found"))).
Proof.
  split.
  - intros Hin phone Hnew. apply edit_phone_present; assumption.
  - apply edit_phone_absent.
Qed.

(** With [old] stored once and [new] different from it, the old number is
    gone after the edit. *)
Corollary edit_phone_single (self : Record.t) (old new : pystr) before after :
  Record.numbers self = before ++ old :: after ->
  ~ In old before -> ~ In old after -> new <> old -> ten_digits new ->
  exists self',
    Record.edit_phone self old (VStr new) = Ok self' /\
    In new (Record.numbers self') /\ ~ In old (Record.numbers self').
Proof.
  intros Hsplit Hb Ha Hne Hten.
  destruct (edit_phone_present self old (VStr new) (Phone.mk new)
              ltac:(rewrite Hsplit, in_app_iff; right; left; reflexivity)
              (Phone_init_accepts new Hten))
    as (b & a & self' & Hs & Hnb & Hedit & Hnum & _ & _ & Hin & Hold).
  exists self'. split; [exact Hedit|]. split; [exact Hin|].
  rewrite Hold. simpl.
  assert (a = after).
  { rewrite Hsplit in Hs. clear - Hs Hb Hnb.
    revert b Hs Hnb. induction before as [|x before IH]; intros [|y b] Hs Hnb;
      simpl in *.
    - congruence.
    - exfalso. injection Hs as <- _. apply Hnb. left; reflexivity.
    - exfalso. injection Hs as -> _. apply Hb. left; reflexivity.
    - injection Hs as -> Hs. apply (IH ltac:(tauto) b Hs). tauto. }
  subst a. intros [H | H]; [tauto | congruence].
Qed.

(** The text of a record ends in a birthday part in every case: the test
    on [self.birthday] is a test on an object, which is true whether or
    not a date was set. *)
Lemma Record_str_always_birthday (self : Record.t) :
  Record.str self =
  lit "Contact name: " ++ Name.value (Record.name self) ++ lit ", phones: " ++
  join (lit "; ") (Record.numbers self) ++
  lit ", birthday: " ++ format_opt (Birthday.value (Record.birthday self)).
Proof. reflexivity. Qed.

(** C7 fails on the code: the record of a contact with one phone and no
    birthday is rendered with the suffix ", birthday: None". *)
Theorem Record_str_without_birthday :
  Birthday.value (Record.birthday record_without_birthday) = None /\
  Record.str record_without_birthday
    = lit "Contact name: alice, phones: 1234567890, birthday: None".
Proof. split; reflexivity. Qed.

(** ** AddressBook as a dictionary *)

Lemma dict_get_set_eq (d : AddressBook.t) (k : pystr) (v : Record.t) :
  AddressBook.dict_get (AddressBook.dict_set d k v) k = Some v.
Proof.
  induction d as [|[k' v'] rest IH]; simpl.
  - rewrite str_eqb_refl. reflexivity.
  - destruct (str_eqb k' k) eqn:E; simpl; rewrite E; [reflexivity | exact IH].
Qed.

(** A new key goes to the end of the dictionary. *)
Lemma dict_set_new (d : AddressBook.t) (k : pystr) (v : Record.t) :
  AddressBook.dict_get d k = None ->
  AddressBook.dict_set d k v = d ++ [(k, v)].
Proof.
  induction d as [|[k' v'] rest IH]; simpl; [reflexivity|].
  destruct (str_eqb k' k); [discriminate|].
  intros H. rewrite (IH H). reflexivity.
Qed.

(** ** Command handlers *)

(** With fewer than two arguments the unpacking in [add_contact] raises
    [ValueError], which the decorator reports through its first clause;
    the book is left as it was. *)
Lemma add_contact_too_few_arguments (args : list pystr) (book : AddressBook.t) :
  (length args < 2)%nat ->
  add_contact args book =
  (lit "ValueError: not enough values to unpack (expected at least 2, got " ++
   str_of_N (N.of_nat (length args)) ++ lit ")", book).
Proof.
  intros Hlen. destruct args as [|a [|b rest]]; simpl in Hlen.
  - reflexivity.
  - reflexivity.
  - lia.
Qed.

(** C5 fails on the code: [add] with a name and no phone answers with the
    text of the [ValueError] of the unpacking, not with "Please provide the
    correct number of arguments.". *)
Theorem add_contact_name_only :
  add_contact [lit "alice"] AddressBook.empty =
    (lit "ValueError: not enough values to unpack (expected at least 2, got 1)",
     AddressBook.empty) /\
  fst (add_contact [lit "alice"] AddressBook.empty)
    <> lit "Please provide the correct number of arguments.".
Proof. split; [reflexivity | discriminate]. Qed.

(** The handlers that index [args[0]] do give that message. *)
Lemma show_phone_no_arguments (book : AddressBook.t) :
  show_phone [] book =
    (lit "Please provide the correct number of arguments.", book) /\
  show_birthday [] book =
    (lit "Please provide the correct number of arguments.", book).
Proof. split; reflexivity. Qed.

(** C6, as stated, fails: for a name that is not in the book,
    [add-birthday] and [show-birthday] answer with the text of a
    [ValueError] of their own. *)
Lemma add_birthday_unknown_name :
  AddressBook.find AddressBook.empty (lit "bob") = None /\
  add_birthday [lit "bob"; lit "01.01.2000"] AddressBook.empty =
    (lit "ValueError: Contact bob not found.", AddressBook.empty) /\
  show_birthday [lit "bob"] AddressBook.empty =
    (lit "ValueError: No birthday found for contact bob.",
     AddressBook.empty) /\
  fst (add_birthday [lit "bob"; lit "01.01.2000"] AddressBook.empty)
    <> lit "Contact not found." /\
  fst (show_birthday [lit "bob"] AddressBook.empty)
    <> lit "Contact not found.".
Proof. repeat split; try reflexivity; discriminate. Qed.

(** C6 (amended): when the name is not in the book, [change] (given its
    three arguments) and [phone] answer "Contact not found."; [add-birthday]
    (given its two arguments) answers "ValueError: Contact {name} not
    found." and [show-birthday] answers "ValueError: No birthday found for
    contact {name}.".  The book is unchanged in the four cases. *)
Theorem lookup_of_unknown_name (book : AddressBook.t) (name : pystr) :
  AddressBook.find book name = None ->
  (forall old_phone new_phone,
     change_contact [name; old_phone; new_phone] book
       = (lit "Contact not found.", book)) /\
  (forall rest,
     show_phone (name :: rest) book = (lit "Contact not found.", book)) /\
  (forall birthday,
     add_birthday [name; birthday] book
       = (lit "ValueError: Contact " ++ name ++ lit " not found.", book)) /\
  (forall rest,
     show_birthday (name :: rest) book
       = (lit "ValueError: No birthday found for contact " ++ name ++ lit ".",
          book)).
Proof.
  intros Hfind. repeat split; intros;
    unfold change_contact, change_contact_body, show_phone, show_phone_body,
      add_birthday, add_birthday_body, show_birthday, show_birthday_body;
    rewrite Hfind; reflexivity.
Qed.

Lemma lookup_of_unknown_name_witness :
  (forall old_phone new_phone,
     change_contact [lit "bob"; old_phone; new_phone] AddressBook.empty
       = (lit "Contact not found.", AddressBook.empty)) /\
  (forall rest,
     show_phone (lit "bob" :: rest) AddressBook.empty
       = (lit "Contact not found.", AddressBook.empty)) /\
  (forall birthday,
     add_birthday [lit "bob"; birthday] AddressBook.empty
       = (lit "ValueError: Contact " ++ lit "bob" ++ lit " not found.",
          AddressBook.empty)) /\
  (forall rest,
     show_birthday (lit "bob" :: rest) AddressBook.empty
       = (lit "ValueError: No birthday found for contact " ++ lit "bob" ++
          lit ".", AddressBook.empty)).
Proof. apply (lookup_of_unknown_name AddressBook.empty (lit "bob")). reflexivity. Defined.

(** C10: [add] with a name that is not in the book and a phone that
    [Phone] rejects puts the new record into the book before the
    validation fails: the handler answers with the error text (with
    "Contact added." when the phone is the empty string, which is never
    validated), and the book has gained, as its last item, a record under
    that name whose phone list is empty. *)
Theorem add_contact_not_atomic (book : AddressBook.t) (name phone : pystr)
  (rest : list pystr) (e : exn) :
  AddressBook.find book name = None ->
  Phone.init (VStr phone) = Raise e ->
  let '(message, book') := add_contact (name :: phone :: rest) book in
  message =
    (if str_truthy phone
     then lit "ValueError: The phone number must be a string of 10 digits"
     else lit "Contact added.") /\
  book' = book ++ [(name, Record.init name)] /\
  AddressBook.find book' name = Some (Record.init name) /\
  Record.phones (Record.init name) = [].
Proof.
  intros Hfind Hphone.
  unfold add_contact, add_contact_body. rewrite Hfind.
  unfold AddressBook.add_record. simpl Name.value.
  destruct (str_truthy phone) eqn:Htruthy.
  - unfold Record.add_phone. rewrite Hphone. simpl.
    rewrite (Phone_init_Raise _ _ Hphone).
    split; [reflexivity|]. split; [apply dict_set_new, Hfind|].
    split; [apply dict_get_set_eq | reflexivity].
  - simpl.
    split; [reflexivity|]. split; [apply dict_set_new, Hfind|].
    split; [apply dict_get_set_eq | reflexivity].
Qed.

Lemma add_contact_not_atomic_witness :
  let '(message, book') :=
    add_contact [lit "alice"; lit "12345"] AddressBook.empty in
  message =
    (if str_truthy (lit "12345")
     then lit "ValueError: The phone number must be a string of 10 digits"
     else lit "Contact added.") /\
  book' = AddressBook.empty ++ [(lit "alice", Record.init (lit "alice"))] /\
  AddressBook.find book' (lit "alice") = Some (Record.init (lit "alice")) /\
  Record.phones (Record.init (lit "alice")) = [].
Proof.
  apply (add_contact_not_atomic AddressBook.empty (lit "alice") (lit "12345") []
           (Exn ValueError Phone.DIGITS_ERROR)).
  - reflexivity.
  - reflexivity.
Defined.

(** ** The calendar *)

Lemma holds_on_spec (f : Z -> bool) (k : nat) (lo : Z) :
  holds_on f k lo = true ->
  forall z, lo <= z < lo + 2 ^ Z.of_nat k -> f z = true.
Proof.
  revert lo. induction k as [|k IH]; intros lo Hall z Hz.
  - simpl in Hall, Hz. replace z with lo by lia. exact Hall.
  - simpl in Hall. apply andb_true_iff in Hall. destruct Hall as [Hl Hr].
    rewrite Nat2Z.inj_succ, Z.pow_succ_r in Hz by lia.
    destruct (Z_lt_le_dec z (lo + 2 ^ Z.of_nat k)).
    + apply (IH lo Hl). lia.
    + apply (IH _ Hr). lia.
Qed.

(** All the ordinals of the first cycle of 400 years, by computation. *)
Lemma ordinal_roundtrip_first_cycle (n : Z) :
  1 <= n <= 146097 -> ordinal_roundtrip n = true.
Proof.
  intros Hn. destruct (Z_lt_le_dec n 131073).
  - apply (holds_on_spec ordinal_roundtrip 17 1); [vm_compute; reflexivity|].
    change (2 ^ Z.of_nat 17) with 131072. lia.
  - apply (holds_on_spec ordinal_roundtrip 14 131073);
      [vm_compute; reflexivity|].
    change (2 ^ Z.of_nat 14) with 16384. lia.
Qed.

Lemma is_leap_cycle (y k : Z) :
  datetime.is_leap (y + 400 * k) = datetime.is_leap y.
Proof.
  unfold datetime.is_leap.
  replace (y + 400 * k) with (y + (100 * k) * 4) at 1 by ring.
  replace (y + 400 * k) with (y + (4 * k) * 100) at 1 by ring.
  replace (y + 400 * k) with (y + k * 400) by ring.
  rewrite !Z.mod_add by lia. reflexivity.
Qed.

Lemma days_before_year_cycle (y k : Z) :
  datetime.days_before_year (y + 400 * k)
  = datetime.days_before_year y + 146097 * k.
Proof.
  unfold datetime.days_before_year. cbv zeta.
  replace (y + 400 * k - 1) with (y - 1 + 400 * k) by ring.
  replace ((y - 1 + 400 * k) / 4) with ((y - 1) / 4 + 100 * k).
  2:{ replace (y - 1 + 400 * k) with (y - 1 + (100 * k) * 4) by ring.
      rewrite Z.div_add by lia. reflexivity. }
  replace ((y - 1 + 400 * k) / 100) with ((y - 1) / 100 + 4 * k).
  2:{ replace (y - 1 + 400 * k) with (y - 1 + (4 * k) * 100) by ring.
      rewrite Z.div_add by lia. reflexivity. }
  replace ((y - 1 + 400 * k) / 400) with ((y - 1) / 400 + k).
  2:{ replace (y - 1 + 400 * k) with (y - 1 + k * 400) by ring.
      rewrite Z.div_add by lia. reflexivity. }
  ring.
Qed.

Lemma ymd2ord_cycle (y m d k : Z) :
  datetime.ymd2ord (y + 400 * k) m d = datetime.ymd2ord y m d + 146097 * k.
Proof.
  unfold datetime.ymd2ord, datetime.days_before_month.
  rewrite days_before_year_cycle, is_leap_cycle. ring.
Qed.

(** [ord2ymd] works on the place of the day inside its cycle of 400
    years and adds the years of the cycles before. *)
Lemma ord2ymd_cycle (n : Z) :
  datetime.ord2ymd n =
  let '(y, m, d) := datetime.ord2ymd ((n - 1) mod 146097 + 1) in
  (y + 400 * ((n - 1) / 146097), m, d).
Proof.
  assert (Hr := Z.mod_pos_bound (n - 1) 146097 ltac:(lia)).
  unfold datetime.ord2ymd. cbv zeta.
  replace ((n - 1) mod 146097 + 1 - 1) with ((n - 1) mod 146097) by ring.
  rewrite (Z.div_small ((n - 1) mod 146097) 146097) by lia.
  rewrite (Z.mod_small ((n - 1) mod 146097) 146097) by lia.
  set (r := (n - 1) mod 146097).
  set (k := (n - 1) / 146097).
  repeat match goal with
         | |- context [if ?c then _ else _] => destruct c
         end; f_equal; f_equal; ring.
Qed.

(** Every ordinal is found again from the date [ord2ymd] gives it. *)
Lemma ord2ymd_ymd2ord (n y m d : Z) :
  datetime.ord2ymd n = (y, m, d) ->
  datetime.ymd2ord y m d = n /\ 1 <= m <= 12 /\ 1 <= d.
Proof.
  intros H. rewrite ord2ymd_cycle in H.
  assert (Hr := Z.mod_pos_bound (n - 1) 146097 ltac:(lia)).
  pose proof (ordinal_roundtrip_first_cycle ((n - 1) mod 146097 + 1)
                ltac:(lia)) as Hbase.
  unfold ordinal_roundtrip in Hbase.
  destruct (datetime.ord2ymd ((n - 1) mod 146097 + 1)) as [[y0 m0] d0].
  injection H as <- <- <-.
  rewrite !andb_true_iff, Z.eqb_eq, !Z.leb_le in Hbase.
  rewrite ymd2ord_cycle.
  pose proof (Z.div_mod (n - 1) 146097 ltac:(lia)). lia.
Qed.

(** Adding days to a date adds them to its ordinal. *)
Lemma toordinal_add_days (dt dt' : datetime.t) (n : Z) :
  datetime.add_days dt n = Ok dt' ->
  datetime.toordinal dt' = datetime.toordinal dt + n /\
  datetime.time_of_day dt' = datetime.time_of_day dt.
Proof.
  unfold datetime.add_days.
  destruct ((0 <? datetime.toordinal dt + n)
            && (datetime.toordinal dt + n <=? datetime.MAXORDINAL));
    [|discriminate].
  destruct (datetime.ord2ymd (datetime.toordinal dt + n)) as [[y m] d] eqn:E.
  intros H. injection H as <-.
  apply ord2ymd_ymd2ord in E. split; [apply E | reflexivity].
Qed.

(** The date [weekend_shift] gives is a working day, on or after the
    date it was given and at most two days later. *)
Lemma weekend_shift_working_day (dt dt' : datetime.t) :
  AddressBook.weekend_shift dt = Ok dt' ->
  0 <= datetime.weekday dt' <= 4 /\
  datetime.toordinal dt <= datetime.toordinal dt' <= datetime.toordinal dt + 2 /\
  datetime.time_of_day dt' = datetime.time_of_day dt.
Proof.
  unfold AddressBook.weekend_shift.
  assert (Hw := Z.mod_pos_bound (datetime.toordinal dt + 6) 7 ltac:(lia)).
  destruct (datetime.weekday dt =? 5) eqn:H5.
  - intros H. apply toordinal_add_days in H. destruct H as [Ho Ht].
    apply Z.eqb_eq in H5. unfold datetime.weekday in *. rewrite Ho.
    split; [|split; [lia | exact Ht]].
    replace (datetime.toordinal dt + 2 + 6)
      with (datetime.toordinal dt + 6 + 2) by ring.
    rewrite Z.add_mod, H5 by lia. change ((5 + 2 mod 7) mod 7) with 0. lia.
  - destruct (datetime.weekday dt =? 6) eqn:H6.
    + intros H. apply toordinal_add_days in H. destruct H as [Ho Ht].
      apply Z.eqb_eq in H6. unfold datetime.weekday in *. rewrite Ho.
      split; [|split; [lia | exact Ht]].
      replace (datetime.toordinal dt + 1 + 6)
        with (datetime.toordinal dt + 6 + 1) by ring.
      rewrite Z.add_mod, H6 by lia. change ((6 + 1 mod 7) mod 7) with 0. lia.
    + intros H. injection H as <-.
      apply Z.eqb_neq in H5, H6. unfold datetime.weekday in *.
      split; [lia | split; [lia | reflexivity]].
Qed.

Lemma days_before_year_succ (y : Z) :
  datetime.days_before_year (y + 1)
  = datetime.days_before_year y + 365 + (if datetime.is_leap y then 1 else 0).
Proof.
  unfold datetime.days_before_year, datetime.is_leap. cbv zeta.
  replace (y + 1 - 1) with y by ring.
  destruct (y mod 4 =? 0) eqn:E4; destruct (y mod 100 =? 0) eqn:E100;
    destruct (y mod 400 =? 0) eqn:E400; cbn [andb orb negb];
    rewrite ?Z.eqb_eq, ?Z.eqb_neq in E4, E100, E400;
    Z.div_mod_to_equations; lia.
Qed.

(** The same day of the next year is at least 365 days later. *)
Lemma ymd2ord_next_year (y m d : Z) :
  datetime.ymd2ord y m d + 365 <= datetime.ymd2ord (y + 1) m d.
Proof.
  unfold datetime.ymd2ord, datetime.days_before_month.
  rewrite days_before_year_succ.
  destruct (2 <? m); destruct (datetime.is_leap y);
    destruct (datetime.is_leap (y + 1)); cbn [andb]; lia.
Qed.

Lemma days_before_year_mono (y y' : Z) :
  y <= y' -> datetime.days_before_year y <= datetime.days_before_year y'.
Proof.
  unfold datetime.days_before_year. cbv zeta. intros Hle.
  Z.div_mod_to_equations. lia.
Qed.

(** A date of the calendar lies inside its year. *)
Lemma ymd2ord_in_year (y m d : Z) :
  datetime.valid_date y m d = true ->
  datetime.days_before_year y < datetime.ymd2ord y m d
    <= datetime.days_before_year (y + 1).
Proof.
  unfold datetime.valid_date, datetime.ymd2ord, datetime.days_before_month,
    datetime.days_in_month.
  rewrite days_before_year_succ, !andb_true_iff, !Z.leb_le.
  intros [[[[[_ _] Hm1] Hm12] Hd1] Hd].
  assert (Hm : m = 1 \/ m = 2 \/ m = 3 \/ m = 4 \/ m = 5 \/ m = 6 \/ m = 7 \/
               m = 8 \/ m = 9 \/ m = 10 \/ m = 11 \/ m = 12) by lia.
  destruct (datetime.is_leap y);
    repeat (destruct Hm as [-> | Hm]; [simpl in *; lia|]);
    subst m; simpl in *; lia.
Qed.

(** A day other than 29 February exists in every year. *)
Lemma valid_date_any_year (y y' m d : Z) :
  datetime.valid_date y m d = true ->
  ~ (m = 2 /\ d = 29) ->
  datetime.MINYEAR <= y' <= datetime.MAXYEAR ->
  datetime.valid_date y' m d = true.
Proof.
  unfold datetime.valid_date, datetime.days_in_month.
  rewrite !andb_true_iff, !Z.leb_le. intros [[[[[_ _] Hm1] Hm12] Hd1] Hd] Hleap Hy.
  repeat split; try lia.
  destruct (m =? 2) eqn:E2; [|exact Hd].
  apply Z.eqb_eq in E2.
  destruct (datetime.is_leap y); destruct (datetime.is_leap y'); lia.
Qed.

(** ** Upcoming birthdays *)

Lemma sub_days_midnight_bounds (a b : datetime.t) :
  datetime.time_of_day a = 0 ->
  0 <= datetime.time_of_day b < datetime.US_PER_DAY ->
  datetime.toordinal a - datetime.toordinal b - 1 <= datetime.sub_days a b
    <= datetime.toordinal a - datetime.toordinal b.
Proof.
  intros Ha Hb. unfold datetime.sub_days. rewrite Ha.
  unfold datetime.US_PER_DAY in *.
  set (o := datetime.toordinal a - datetime.toordinal b).
  set (tb := datetime.time_of_day b) in *.
  assert (H := Z.div_mod (o * (86400 * 1000000) + (0 - tb)) (86400 * 1000000)
                 ltac:(lia)).
  assert (H' := Z.mod_pos_bound (o * (86400 * 1000000) + (0 - tb))
                  (86400 * 1000000) ltac:(lia)).
  lia.
Qed.

Lemma valid_time_of_day (dt : datetime.t) :
  datetime.valid_time dt = true ->
  0 <= datetime.time_of_day dt < datetime.US_PER_DAY.
Proof.
  unfold datetime.valid_time, datetime.time_of_day, datetime.US_PER_DAY.
  rewrite !andb_true_iff, !Z.leb_le, !Z.ltb_lt. lia.
Qed.

(** C2, as stated, fails: 15 June 2024 is a Saturday, so the date in the
    result is Monday 17 June 2024, not 15 June. *)
Lemma upcoming_15_june_is_shifted :
  datetime.weekday (datetime.mk 2024 6 15 0 0 0 0) = 5 /\
  AddressBook.get_upcoming_birthdays (on_2024_06_10 0 0 0 0)
    (book_of (record_born (lit "alice") (lit "15.06.1990")))
  = Ok [AddressBook.mk_entry (lit "alice") (lit "17.06.2024")] /\
  AddressBook.get_upcoming_birthdays (on_2024_06_10 0 0 0 0)
    (book_of (record_born (lit "alice") (lit "15.06.1990")))
  <> Ok [AddressBook.mk_entry (lit "alice") (lit "15.06.2024")].
Proof. split; [reflexivity|]. split; [reflexivity | discriminate]. Qed.

(** C2 (amended): at any time of Monday 10 June 2024, a book of one
    record born on 15.06.1990 gives that record with the date 17.06.2024:
    15 June 2024 is a Saturday and is moved to the Monday after. *)
Theorem upcoming_15_june (h mi s us : Z) (name : pystr) :
  datetime.valid_time (on_2024_06_10 h mi s us) = true ->
  AddressBook.get_upcoming_birthdays (on_2024_06_10 h mi s us)
    (book_of (record_born name (lit "15.06.1990")))
  = Ok [AddressBook.mk_entry name (lit "17.06.2024")].
Proof.
  intros Hvalid.
  pose proof (valid_time_of_day _ Hvalid) as Htod.
  pose proof (sub_days_midnight_bounds (datetime.mk 2024 6 17 0 0 0 0)
                (on_2024_06_10 h mi s us) eq_refl Htod) as Hdays.
  change (datetime.toordinal (datetime.mk 2024 6 17 0 0 0 0)) with 739054 in Hdays.
  change (datetime.toordinal (on_2024_06_10 h mi s us)) with 739047 in Hdays.
  unfold AddressBook.get_upcoming_birthdays, book_of, AddressBook.add_record.
  cbn [AddressBook.dict_set AddressBook.empty AddressBook.values List.map snd
       AddressBook.loop].
  unfold AddressBook.visit.
  cbn [record_born Record.birthday Birthday.value Record.name Name.value
       object_truthy andb].
  change (opt_truthy (Some (lit "15.06.1990"))) with true. cbv iota.
  change (datetime.strptime (lit "15.06.1990"))
    with (Some (datetime.mk 1990 6 15 0 0 0 0)). cbv iota.
  change (AddressBook.this_year_occurrence (on_2024_06_10 h mi s us)
            (datetime.mk 1990 6 15 0 0 0 0))
    with (Ok (datetime.mk 2024 6 15 0 0 0 0)).
  cbn [bind].
  change (AddressBook.weekend_shift (datetime.mk 2024 6 15 0 0 0 0))
    with (Ok (datetime.mk 2024 6 17 0 0 0 0)).
  cbn [bind].
  destruct (0 <=? datetime.sub_days (datetime.mk 2024 6 17 0 0 0 0)
                    (on_2024_06_10 h mi s us)) eqn:Hlo;
    [|apply Z.leb_gt in Hlo; lia].
  destruct (datetime.sub_days (datetime.mk 2024 6 17 0 0 0 0)
              (on_2024_06_10 h mi s us) <=? 7) eqn:Hhi;
    [|apply Z.leb_gt in Hhi; lia].
  reflexivity.
Qed.

Lemma upcoming_15_june_witness :
  AddressBook.get_upcoming_birthdays (on_2024_06_10 14 30 0 0)
    (book_of (record_born (lit "alice") (lit "15.06.1990")))
  = Ok [AddressBook.mk_entry (lit "alice") (lit "17.06.2024")].
Proof. apply (upcoming_15_june 14 30 0 0 (lit "alice")). reflexivity. Defined.

(** What [strptime] returns is a date of the calendar at midnight. *)
Lemma strptime_Some (s : pystr) (dt : datetime.t) :
  datetime.strptime s = Some dt ->
  s <> [] /\
  datetime.valid_date (datetime.year dt) (datetime.month dt) (datetime.day dt)
    = true /\
  dt = datetime.mk (datetime.year dt) (datetime.month dt) (datetime.day dt)
         0 0 0 0.
Proof.
  intros H. split; [intros ->; discriminate H|].
  unfold datetime.strptime in H.
  destruct (datetime.regex_match s) as [[[[d m] y] [|c r]]|]; try discriminate H.
  destruct (datetime.valid_date y m d) eqn:Hv; [|discriminate H].
  injection H as <-. simpl. split; [exact Hv | reflexivity].
Qed.

Lemma replace_year_valid (dt : datetime.t) (y : Z) :
  datetime.valid_date y (datetime.month dt) (datetime.day dt) = true ->
  datetime.replace_year dt y =
  Ok (datetime.mk y (datetime.month dt) (datetime.day dt) (datetime.hour dt)
        (datetime.minute dt) (datetime.second dt) (datetime.microsecond dt)).
Proof.
  unfold datetime.valid_date, datetime.replace_year.
  rewrite !andb_true_iff. intros [[[[[H1 H2] _] _] H5] H6].
  rewrite H1, H2, H5, H6. reflexivity.
Qed.

(** Midnight of a day compares less than any later moment of that day. *)
Lemma midnight_ltb (today : datetime.t) :
  datetime.valid_time today = true ->
  0 < datetime.time_of_day today ->
  datetime.ltb
    (datetime.mk (datetime.year today) (datetime.month today)
       (datetime.day today) 0 0 0 0) today = true.
Proof.
  unfold datetime.valid_time, datetime.time_of_day, datetime.ltb.
  rewrite !andb_true_iff, !Z.leb_le, !Z.ltb_lt. intros Hv Hpos.
  cbn [datetime.fields datetime.lex_ltb datetime.year datetime.month
       datetime.day datetime.hour datetime.minute datetime.second
       datetime.microsecond].
  rewrite !Z.ltb_irrefl, !Z.eqb_refl. cbn [orb andb].
  destruct (0 <? datetime.hour today) eqn:Hh; [reflexivity|].
  apply Z.ltb_ge in Hh.
  replace (0 =? datetime.hour today) with true by (symmetry; apply Z.eqb_eq; lia).
  cbn [orb andb].
  destruct (0 <? datetime.minute today) eqn:Hm; [reflexivity|].
  apply Z.ltb_ge in Hm.
  replace (0 =? datetime.minute today) with true
    by (symmetry; apply Z.eqb_eq; lia).
  cbn [orb andb].
  destruct (0 <? datetime.second today) eqn:Hs; [reflexivity|].
  apply Z.ltb_ge in Hs.
  replace (0 =? datetime.second today) with true
    by (symmetry; apply Z.eqb_eq; lia).
  cbn [orb andb].
  destruct (0 <? datetime.microsecond today) eqn:Hu; [reflexivity|].
  apply Z.ltb_ge in Hu. lia.
Qed.

(** A record that [visit] leaves out does not change the result for the
    rest of the book. *)
Lemma loop_app (today : datetime.t) (l1 l2 : list Record.t)
  (upcoming : list AddressBook.entry) :
  AddressBook.loop today (l1 ++ l2) upcoming =
  let* upcoming' := AddressBook.loop today l1 upcoming in
  AddressBook.loop today l2 upcoming'.
Proof.
  revert upcoming. induction l1 as [|r l1 IH]; intros upcoming; simpl.
  - reflexivity.
  - destruct (AddressBook.visit today r upcoming) as [u|e]; simpl;
      [apply IH | reflexivity].
Qed.

Lemma skipped_record (today : datetime.t) (key : pystr) (record : Record.t)
  (before after : AddressBook.t) :
  (forall upcoming, AddressBook.visit today record upcoming = Ok upcoming) ->
  AddressBook.get_upcoming_birthdays today (before ++ (key, record) :: after)
  = AddressBook.get_upcoming_birthdays today (before ++ after).
Proof.
  intros Hskip. unfold AddressBook.get_upcoming_birthdays, AddressBook.values.
  rewrite !List.map_app, !loop_app. simpl.
  destruct (AddressBook.loop today (List.map snd before) []) as [u|e]; simpl;
    [rewrite Hskip; reflexivity | reflexivity].
Qed.

(** The steps of [visit] for a record whose birthday parses. *)
Lemma visit_parsed (today : datetime.t) (record : Record.t) (s : pystr)
  (birthday_date : datetime.t) (upcoming : list AddressBook.entry) :
  Birthday.value (Record.birthday record) = Some s ->
  datetime.strptime s = Some birthday_date ->
  AddressBook.visit today record upcoming =
  let* occurrence := AddressBook.this_year_occurrence today birthday_date in
  let* shifted := AddressBook.weekend_shift occurrence in
  let days_until := datetime.sub_days shifted today in
  Ok (if (0 <=? days_until) && (days_until <=? 7)
      then upcoming ++ [AddressBook.mk_entry (Name.value (Record.name record))
                          (datetime.strftime shifted)]
      else upcoming).
Proof.
  intros Hvalue Hparse. unfold AddressBook.visit. rewrite Hvalue.
  destruct (strptime_Some _ _ Hparse) as (Hne & _ & _).
  destruct s as [|c s]; [congruence|]. cbn [object_truthy opt_truthy str_truthy andb].
  rewrite Hparse.
  destruct (AddressBook.this_year_occurrence today birthday_date) as [o|e];
    [|reflexivity]. cbn [bind].
  destruct (AddressBook.weekend_shift o) as [sh|e]; [|reflexivity]. cbn [bind].
  destruct ((0 <=? datetime.sub_days sh today)
            && (datetime.sub_days sh today <=? 7)); reflexivity.
Qed.

(** After the move to the next year the date is far away. *)
Lemma next_year_is_far (today next_year shifted : datetime.t) :
  datetime.valid_time today = true ->
  datetime.replace_year
    (datetime.mk (datetime.year today) (datetime.month today)
       (datetime.day today) 0 0 0 0) (datetime.year today + 1)
    = Ok next_year ->
  AddressBook.weekend_shift next_year = Ok shifted ->
  364 <= datetime.sub_days shifted today.
Proof.
  intros Htime Hnext Hshift.
  assert (Hord : datetime.toordinal today + 365 <= datetime.toordinal next_year
                 /\ datetime.time_of_day next_year = 0).
  { unfold datetime.replace_year in Hnext.
    repeat match type of Hnext with
           | (if ?c then _ else _) = _ => destruct c; [discriminate Hnext|]
           end.
    injection Hnext as <-. split; [|reflexivity].
    unfold datetime.toordinal. simpl. apply ymd2ord_next_year. }
  destruct Hord as [Hord Hmid].
  destruct (weekend_shift_working_day _ _ Hshift) as (_ & Hsh & Ht).
  pose proof (sub_days_midnight_bounds shifted today ltac:(congruence)
                (valid_time_of_day _ Htime)). lia.
Qed.

(** C9: when the birthday falls on today's date and the clock is past
    midnight, this year's occurrence (midnight of today) compares less
    than now, so the occurrence is taken in the next year; that
    occurrence, moved off the weekend, is more than 7 days away, and the
    record adds nothing to the result. *)
Theorem birthday_today_after_midnight (today : datetime.t) (record : Record.t)
  (s : pystr) (birthday_date : datetime.t) :
  datetime.valid today = true ->
  0 < datetime.time_of_day today ->
  Birthday.value (Record.birthday record) = Some s ->
  datetime.strptime s = Some birthday_date ->
  datetime.month birthday_date = datetime.month today ->
  datetime.day birthday_date = datetime.day today ->
  exists this_year_birthday,
    datetime.replace_year birthday_date (datetime.year today)
      = Ok this_year_birthday /\
    datetime.time_of_day this_year_birthday = 0 /\
    datetime.ltb this_year_birthday today = true /\
    AddressBook.this_year_occurrence today birthday_date
      = datetime.replace_year this_year_birthday (datetime.year today + 1) /\
    forall next_year shifted,
      datetime.replace_year this_year_birthday (datetime.year today + 1)
        = Ok next_year ->
      AddressBook.weekend_shift next_year = Ok shifted ->
      7 < datetime.sub_days shifted today /\
      (forall upcoming,
         AddressBook.visit today record upcoming = Ok upcoming) /\
      (forall key before after,
         AddressBook.get_upcoming_birthdays today
           (before ++ (key, record) :: after)
         = AddressBook.get_upcoming_birthdays today (before ++ after)).
Proof.
  intros Hvalid Hpos Hvalue Hparse Hmonth Hday.
  unfold datetime.valid in Hvalid. apply andb_true_iff in Hvalid.
  destruct Hvalid as [Hdate Htime].
  destruct (strptime_Some _ _ Hparse) as (_ & _ & Hshape).
  assert (Hreplace :
    datetime.replace_year birthday_date (datetime.year today) =
    Ok (datetime.mk (datetime.year today) (datetime.month today)
          (datetime.day today) 0 0 0 0)).
  { rewrite replace_year_valid by (rewrite Hmonth, Hday; exact Hdate).
    rewrite Hshape. simpl. rewrite Hmonth, Hday. reflexivity. }
  eexists. split; [exact Hreplace|]. split; [reflexivity|].
  pose proof (midnight_ltb today Htime Hpos) as Hlt.
  split; [exact Hlt|].
  assert (Hocc :
    AddressBook.this_year_occurrence today birthday_date =
    datetime.replace_year
      (datetime.mk (datetime.year today) (datetime.month today)
         (datetime.day today) 0 0 0 0) (datetime.year today + 1)).
  { unfold AddressBook.this_year_occurrence. rewrite Hreplace. cbn [bind].
    rewrite Hlt. reflexivity. }
  split; [exact Hocc|].
  intros next_year shifted Hnext Hshift.
  pose proof (next_year_is_far _ _ _ Htime Hnext Hshift) as Hfar.
  assert (Hskip : forall upcoming,
            AddressBook.visit today record upcoming = Ok upcoming).
  { intros upcoming. rewrite (visit_parsed _ _ _ _ _ Hvalue Hparse).
    rewrite Hocc, Hnext. cbn [bind]. rewrite Hshift. cbn [bind]. cbv zeta.
    destruct (datetime.sub_days shifted today <=? 7) eqn:E;
      [apply Z.leb_le in E; lia|].
    rewrite andb_false_r. reflexivity. }
  split; [lia|]. split; [exact Hskip|].
  intros key before after. apply skipped_record, Hskip.
Qed.

Lemma birthday_today_after_midnight_witness :
  exists this_year_birthday,
    datetime.replace_year (datetime.mk 1990 6 10 0 0 0 0)
      (datetime.year (on_2024_06_10 9 0 0 0)) = Ok this_year_birthday /\
    datetime.time_of_day this_year_birthday = 0 /\
    datetime.ltb this_year_birthday (on_2024_06_10 9 0 0 0) = true /\
    AddressBook.this_year_occurrence (on_2024_06_10 9 0 0 0)
      (datetime.mk 1990 6 10 0 0 0 0)
      = datetime.replace_year this_year_birthday
          (datetime.year (on_2024_06_10 9 0 0 0) + 1) /\
    forall next_year shifted,
      datetime.replace_year this_year_birthday
        (datetime.year (on_2024_06_10 9 0 0 0) + 1) = Ok next_year ->
      AddressBook.weekend_shift next_year = Ok shifted ->
      7 < datetime.sub_days shifted (on_2024_06_10 9 0 0 0) /\
      (forall upcoming,
         AddressBook.visit (on_2024_06_10 9 0 0 0)
           (record_born (lit "alice") (lit "10.06.1990")) upcoming
         = Ok upcoming) /\
      (forall key before after,
         AddressBook.get_upcoming_birthdays (on_2024_06_10 9 0 0 0)
           (before ++ (key, record_born (lit "alice") (lit "10.06.1990"))
                   :: after)
         = AddressBook.get_upcoming_birthdays (on_2024_06_10 9 0 0 0)
             (before ++ after)).
Proof.
  apply (birthday_today_after_midnight (on_2024_06_10 9 0 0 0)
           (record_born (lit "alice") (lit "10.06.1990")) (lit "10.06.1990")
           (datetime.mk 1990 6 10 0 0 0 0)).
  - reflexivity.
  - reflexivity.
  - reflexivity.
  - reflexivity.
  - reflexivity.
  - reflexivity.
Defined.

(** The same birthday at midnight sharp is in the result; an instant
    later it is not. *)
Example birthday_today_at_midnight :
  AddressBook.get_upcoming_birthdays (on_2024_06_10 0 0 0 0)
    (book_of (record_born (lit "alice") (lit "10.06.1990")))
  = Ok [AddressBook.mk_entry (lit "alice") (lit "10.06.2024")] /\
  AddressBook.get_upcoming_birthdays (on_2024_06_10 0 0 0 1)
    (book_of (record_born (lit "alice") (lit "10.06.1990")))
  = Ok [].
Proof. split; reflexivity. Qed.

(** The order of the steps for one record: the occurrence, then the
    move off the weekend, then the count of days against the moved date,
    then the test of the window. *)
Lemma visit_steps (today : datetime.t) (record : Record.t) (s : pystr)
  (birthday_date occurrence shifted : datetime.t)
  (upcoming : list AddressBook.entry) :
  Birthday.value (Record.birthday record) = Some s ->
  datetime.strptime s = Some birthday_date ->
  AddressBook.this_year_occurrence today birthday_date = Ok occurrence ->
  AddressBook.weekend_shift occurrence = Ok shifted ->
  (0 <= datetime.sub_days shifted today <= 7 ->
   AddressBook.visit today record upcoming =
   Ok (upcoming ++ [AddressBook.mk_entry (Name.value (Record.name record))
                      (datetime.strftime shifted)])) /\
  (~ 0 <= datetime.sub_days shifted today <= 7 ->
   AddressBook.visit today record upcoming = Ok upcoming).
Proof.
  intros Hvalue Hparse Hocc Hshift.
  rewrite (visit_parsed _ _ _ _ _ Hvalue Hparse), Hocc. cbn [bind].
  rewrite Hshift. cbn [bind]. cbv zeta.
  destruct (0 <=? datetime.sub_days shifted today) eqn:Hlo;
    destruct (datetime.sub_days shifted today <=? 7) eqn:Hhi;
    cbn [andb];
    rewrite ?Z.leb_le, ?Z.leb_gt in Hlo, Hhi;
    split; intros H; try reflexivity; lia.
Qed.

(** Apart from 29 February (and from the last years of the calendar)
    the occurrence and its move off the weekend are always found. *)
Lemma this_year_occurrence_total (today birthday_date : datetime.t) :
  datetime.valid today = true ->
  datetime.valid_date (datetime.year birthday_date)
    (datetime.month birthday_date) (datetime.day birthday_date) = true ->
  ~ (datetime.month birthday_date = 2 /\ datetime.day birthday_date = 29) ->
  datetime.year today < datetime.MAXYEAR ->
  exists occurrence,
    AddressBook.this_year_occurrence today birthday_date = Ok occurrence /\
    datetime.month occurrence = datetime.month birthday_date /\
    datetime.day occurrence = datetime.day birthday_date /\
    datetime.year today <= datetime.year occurrence <= datetime.year today + 1 /\
    datetime.valid_date (datetime.year occurrence) (datetime.month occurrence)
      (datetime.day occurrence) = true.
Proof.
  intros Hvalid Hbd Hleap Hyear.
  assert (Hy : datetime.MINYEAR <= datetime.year today <= datetime.MAXYEAR).
  { unfold datetime.valid, datetime.valid_date in Hvalid.
    rewrite !andb_true_iff, !Z.leb_le in Hvalid. lia. }
  unfold datetime.MINYEAR, datetime.MAXYEAR in *.
  unfold AddressBook.this_year_occurrence.
  rewrite replace_year_valid
    by (eapply valid_date_any_year; [exact Hbd | exact Hleap | exact Hy]).
  cbn [bind].
  match goal with |- context [datetime.ltb ?a ?b] =>
    destruct (datetime.ltb a b) end.
  - rewrite replace_year_valid; cbn [datetime.month datetime.day].
    + eexists. split; [reflexivity|]. simpl.
      repeat split; try lia.
      eapply valid_date_any_year; [exact Hbd | exact Hleap |].
      unfold datetime.MINYEAR, datetime.MAXYEAR. lia.
    + eapply valid_date_any_year; [exact Hbd | exact Hleap |].
      unfold datetime.MINYEAR, datetime.MAXYEAR. lia.
  - eexists. split; [reflexivity|]. simpl.
    repeat split; try lia.
    eapply valid_date_any_year; [exact Hbd | exact Hleap | exact Hy].
Qed.

Lemma weekend_shift_total (dt : datetime.t) :
  datetime.valid_date (datetime.year dt) (datetime.month dt) (datetime.day dt)
    = true ->
  datetime.year dt < datetime.MAXYEAR ->
  exists shifted, AddressBook.weekend_shift dt = Ok shifted.
Proof.
  intros Hvalid Hyear. unfold datetime.MAXYEAR in Hyear.
  pose proof (ymd2ord_in_year _ _ _ Hvalid) as Hin.
  assert (Hy : datetime.MINYEAR <= datetime.year dt).
  { unfold datetime.valid_date in Hvalid.
    rewrite !andb_true_iff, !Z.leb_le in Hvalid. lia. }
  unfold datetime.MINYEAR in Hy.
  pose proof (days_before_year_mono 1 (datetime.year dt) Hy) as Hlo.
  pose proof (days_before_year_mono (datetime.year dt + 1) 9999 ltac:(lia))
    as Hhi.
  change (datetime.days_before_year 1) with 0 in Hlo.
  change (datetime.days_before_year 9999) with 3651694 in Hhi.
  assert (Hadd : forall n, 0 <= n <= 2 ->
            exists shifted, datetime.add_days dt n = Ok shifted).
  { intros n Hn. unfold datetime.add_days, datetime.toordinal, datetime.MAXORDINAL.
    replace (0 <? datetime.ymd2ord (datetime.year dt) (datetime.month dt)
                    (datetime.day dt) + n) with true
      by (symmetry; apply Z.ltb_lt; lia).
    replace (datetime.ymd2ord (datetime.year dt) (datetime.month dt)
               (datetime.day dt) + n <=? 3652059) with true
      by (symmetry; apply Z.leb_le; lia).
    cbn [andb].
    destruct (datetime.ord2ymd _) as [[y m] d]. eexists; reflexivity. }
  unfold AddressBook.weekend_shift.
  destruct (datetime.weekday dt =? 5); [apply Hadd; lia|].
  destruct (datetime.weekday dt =? 6); [apply Hadd; lia|].
  eexists; reflexivity.
Qed.

(** For every record whose birthday parses and is not a 29 February,
    [visit] follows the order of the steps and returns: the occurrence,
    the move off the weekend, the days counted against the moved date,
    and the record in the result exactly when that count is from 0 to 7. *)
Lemma visit_total (today : datetime.t) (record : Record.t) (s : pystr)
  (birthday_date : datetime.t) (upcoming : list AddressBook.entry) :
  datetime.valid today = true ->
  datetime.year today < datetime.MAXYEAR - 1 ->
  Birthday.value (Record.birthday record) = Some s ->
  datetime.strptime s = Some birthday_date ->
  ~ (datetime.month birthday_date = 2 /\ datetime.day birthday_date = 29) ->
  exists occurrence shifted,
    AddressBook.this_year_occurrence today birthday_date = Ok occurrence /\
    AddressBook.weekend_shift occurrence = Ok shifted /\
    AddressBook.visit today record upcoming =
    Ok (if (0 <=? datetime.sub_days shifted today)
           && (datetime.sub_days shifted today <=? 7)
        then upcoming ++
             [AddressBook.mk_entry (Name.value (Record.name record))
                (datetime.strftime shifted)]
        else upcoming).
Proof.
  intros Hvalid Hyear Hvalue Hparse Hleap.
  destruct (strptime_Some _ _ Hparse) as (_ & Hbd & _).
  destruct (this_year_occurrence_total today birthday_date Hvalid Hbd Hleap
              ltac:(unfold datetime.MAXYEAR in *; lia))
    as (occ & Hocc & _ & _ & Hyocc & Hvocc).
  destruct (weekend_shift_total occ Hvocc
              ltac:(unfold datetime.MAXYEAR in *; lia)) as (sh & Hsh).
  exists occ, sh. split; [exact Hocc|]. split; [exact Hsh|].
  rewrite (visit_parsed _ _ _ _ _ Hvalue Hparse), Hocc. cbn [bind].
  rewrite Hsh. reflexivity.
Qed.

(** A birthday on the Saturday a week from a Saturday midnight is 7 days
    away, in the window; moved to the Monday it is 9 days away, and the
    record is left out. *)
Example shifted_out_of_window :
  let today := datetime.mk 2024 6 8 0 0 0 0 in
  AddressBook.this_year_occurrence today (datetime.mk 1990 6 15 0 0 0 0)
    = Ok (datetime.mk 2024 6 15 0 0 0 0) /\
  datetime.sub_days (datetime.mk 2024 6 15 0 0 0 0) today = 7 /\
  AddressBook.weekend_shift (datetime.mk 2024 6 15 0 0 0 0)
    = Ok (datetime.mk 2024 6 17 0 0 0 0) /\
  datetime.sub_days (datetime.mk 2024 6 17 0 0 0 0) today = 9 /\
  AddressBook.get_upcoming_birthdays today
    (book_of (record_born (lit "alice") (lit "15.06.1990"))) = Ok [].
Proof. repeat split; reflexivity. Qed.

(** C1 fails on the code: with a contact born on 29 February in the
    book, in a year that is not a leap year the call raises [ValueError]
    at [replace(year=...)], outside the [try]; no list is returned, and
    the other contact, whose birthday is on 12 June, is not reported. *)
Theorem upcoming_raises_on_leap_day :
  datetime.strptime (lit "29.02.2000") = Some (datetime.mk 2000 2 29 0 0 0 0) /\
  AddressBook.get_upcoming_birthdays morning_2023_06_10
    (book_of (record_born (lit "alice") (lit "12.06.1990")))
  = Ok [AddressBook.mk_entry (lit "alice") (lit "12.06.2023")] /\
  AddressBook.get_upcoming_birthdays morning_2023_06_10 book_with_leap_day
  = Raise (Exn ValueError (lit "day is out of range for month")) /\
  show_upcoming_birthdays morning_2023_06_10 book_with_leap_day
  = lit "ValueError: day is out of range for month".
Proof. repeat split; reflexivity. Qed.

(** The same happens in a leap year once 29 February has passed, when
    the occurrence is moved to the next year. *)
Example upcoming_raises_after_leap_day :
  AddressBook.get_upcoming_birthdays (datetime.mk 2024 3 1 9 0 0 0)
    (book_of (record_born (lit "bob") (lit "29.02.2000")))
  = Raise (Exn ValueError (lit "day is out of range for month")).
Proof. reflexivity. Qed.

(** ** Persistence *)

Lemma dec_str_enc (s : pystr) (rest : list N) :
  dec_str (enc_str s ++ rest) = Some (s, rest).
Proof.
  unfold dec_str, enc_str, pystr, codepoint in *. simpl. rewrite Nat2N.id.
  replace (length s <=? length (s ++ rest))%nat with true.
  - rewrite firstn_app, Nat.sub_diag, firstn_all, skipn_app, Nat.sub_diag,
      skipn_all. simpl. rewrite List.app_nil_r. reflexivity.
  - symmetry. apply Nat.leb_le. rewrite List.length_app. lia.
Qed.

Lemma dec_items_enc {A} (enc : A -> list N) (dec : parser A) :
  (forall x rest, dec (enc x ++ rest) = Some (x, rest)) ->
  forall l rest,
    dec_items dec (length l) (enc_items enc l ++ rest) = Some (l, rest).
Proof.
  intros Hdec l. induction l as [|x l IH]; intros rest; simpl.
  - reflexivity.
  - rewrite <- List.app_assoc, Hdec, IH. reflexivity.
Qed.

Lemma dec_list_enc {A} (enc : A -> list N) (dec : parser A) :
  (forall x rest, dec (enc x ++ rest) = Some (x, rest)) ->
  forall l rest, dec_list dec (enc_list enc l ++ rest) = Some (l, rest).
Proof.
  intros Hdec l rest. unfold dec_list, enc_list. simpl.
  rewrite Nat2N.id. apply dec_items_enc, Hdec.
Qed.

Lemma dec_phone_enc (p : Phone.t) (rest : list N) :
  dec_phone (enc_phone p ++ rest) = Some (p, rest).
Proof.
  unfold dec_phone, enc_phone. rewrite dec_str_enc. destruct p; reflexivity.
Qed.

Lemma dec_birthday_enc (b : Birthday.t) (rest : list N) :
  dec_birthday (enc_birthday b ++ rest) = Some (b, rest).
Proof.
  destruct b as [[s|]]; unfold enc_birthday; cbn [Birthday.value];
    [|reflexivity].
  change ((1%N :: enc_str s) ++ rest) with (1%N :: (enc_str s ++ rest)).
  unfold dec_birthday. rewrite dec_str_enc. reflexivity.
Qed.

Lemma dec_record_enc (r : Record.t) (rest : list N) :
  dec_record (enc_record r ++ rest) = Some (r, rest).
Proof.
  unfold dec_record, enc_record. rewrite <- !List.app_assoc.
  rewrite dec_str_enc, (dec_list_enc enc_phone dec_phone dec_phone_enc),
    dec_birthday_enc.
  destruct r as [[n] ps b]; reflexivity.
Qed.

Lemma dec_item_enc (kv : pystr * Record.t) (rest : list N) :
  dec_item (enc_item kv ++ rest) = Some (kv, rest).
Proof.
  unfold dec_item, enc_item. rewrite <- List.app_assoc.
  rewrite dec_str_enc, dec_record_enc. destruct kv; reflexivity.
Qed.

Lemma length_prefixed_loads_dumps (book : AddressBook.t) :
  loads (dumps book) = Ok book.
Proof.
  unfold loads, dumps, length_prefixed.
  rewrite <- (List.app_nil_r (enc_list enc_item book)).
  rewrite (dec_list_enc enc_item dec_item dec_item_enc). reflexivity.
Qed.

Section PersistenceProperties.
Context {blob : Type} `{Pickle blob}.

(** With no file of that name, [load_data] starts from an empty book. *)
Lemma load_data_missing (filename : pystr) (fs : filesystem blob) :
  fs !! filename = None -> load_data filename fs = Ok AddressBook.empty.
Proof. intros Hnone. unfold load_data. rewrite Hnone. reflexivity. Qed.

(** Saving writes one file and leaves the others alone. *)
Lemma save_data_other (book : AddressBook.t) (filename other : pystr)
  (fs : filesystem blob) :
  filename <> other -> save_data book filename fs !! other = fs !! other.
Proof. intros Hne. unfold save_data. apply lookup_insert_ne, Hne. Qed.

(** What the program asks of [pickle]: unpickling the pickle of a book
    gives the book back. *)
Hypothesis loads_dumps : forall book, loads (dumps book) = Ok book.

(** C8: [load_data] applied to the file [save_data] wrote gives a book
    equal to the one saved: the same names in the same order, and for
    each the same phones in the same order and the same birthday;
    whatever the file held before is overwritten. *)
Theorem save_then_load (book : AddressBook.t) (filename : pystr)
  (fs : filesystem blob) :
  load_data filename (save_data book filename fs) = Ok book /\
  forall loaded,
    load_data filename (save_data book filename fs) = Ok loaded ->
    List.map fst loaded = List.map fst book /\
    List.map Record.numbers (AddressBook.values loaded)
      = List.map Record.numbers (AddressBook.values book) /\
    List.map Record.birthday (AddressBook.values loaded)
      = List.map Record.birthday (AddressBook.values book).
Proof.
  assert (Hload : load_data filename (save_data book filename fs) = Ok book).
  { unfold load_data, save_data. rewrite lookup_insert_eq. apply loads_dumps. }
  split; [exact Hload|].
  intros loaded Hloaded. rewrite Hload in Hloaded.
  injection Hloaded as <-. repeat split; reflexivity.
Qed.

End PersistenceProperties.

Lemma save_then_load_witness :
  load_data DEFAULT_FILENAME
    (save_data book_with_leap_day DEFAULT_FILENAME (∅ : filesystem (list N)))
    = Ok book_with_leap_day /\
  forall loaded,
    load_data DEFAULT_FILENAME
      (save_data book_with_leap_day DEFAULT_FILENAME
         (∅ : filesystem (list N))) = Ok loaded ->
    List.map fst loaded = List.map fst book_with_leap_day /\
    List.map Record.numbers (AddressBook.values loaded)
      = List.map Record.numbers (AddressBook.values book_with_leap_day) /\
    List.map Record.birthday (AddressBook.values loaded)
      = List.map Record.birthday (AddressBook.values book_with_leap_day).
Proof.
  apply (save_then_load (H := length_prefixed) length_prefixed_loads_dumps
           book_with_leap_day DEFAULT_FILENAME ∅).
Defined.

(** * Further properties of the program *)

(** ** Birthday *)

Lemma decimal_value_digit_char (k : Z) :
  decimal_value (datetime.digit_char k) = Some (k mod 10).
Proof.
  unfold datetime.digit_char.
  assert (Hk := Z.mod_pos_bound k 10 ltac:(lia)).
  assert (Hc : k mod 10 = 0 \/ k mod 10 = 1 \/ k mod 10 = 2 \/ k mod 10 = 3 \/
               k mod 10 = 4 \/ k mod 10 = 5 \/ k mod 10 = 6 \/ k mod 10 = 7 \/
               k mod 10 = 8 \/ k mod 10 = 9) by lia.
  repeat (destruct Hc as [-> | Hc]; [reflexivity|]). rewrite Hc. reflexivity.
Qed.

Lemma four_digits_year (y : Z) (rest : pystr) :
  0 <= y <= 9999 ->
  datetime.four_digits (datetime.four_digit_year y ++ rest) = Some (y, rest).
Proof.
  intros Hy. unfold datetime.four_digit_year, datetime.four_digits.
  cbn [app]. rewrite !decimal_value_digit_char.
  f_equal. f_equal. Z.div_mod_to_equations. lia.
Qed.

(** Reading a day written with two digits, whatever follows the dot. *)
Lemma day_written (d : Z) (rest : pystr) {B}
  (g : Z -> pystr -> option B) :
  1 <= d <= 31 ->
  datetime.first_match
    (datetime.day_alternatives
       (datetime.two_digits d ++ [datetime.DOT] ++ rest))
    (fun '(d', r1) =>
       match datetime.expect_dot r1 with
       | None => None
       | Some r2 => g d' r2
       end)
  = g d rest.
Proof.
  intros Hd.
  assert (Hn : exists n : nat, d = Z.of_nat n /\ (1 <= n <= 31)%nat)
    by (exists (Z.to_nat d); lia).
  destruct Hn as (n & -> & Hn).
  destruct n as [|n]; [lia|].
  do 31 (destruct n as [|n];
         [cbv -[datetime.first_match]; cbn [datetime.first_match];
          destruct (g _ rest); reflexivity|]).
  lia.
Qed.

Lemma month_written (m : Z) (rest : pystr) {B}
  (g : Z -> pystr -> option B) :
  1 <= m <= 12 ->
  datetime.first_match
    (datetime.month_alternatives
       (datetime.two_digits m ++ [datetime.DOT] ++ rest))
    (fun '(m', r3) =>
       match datetime.expect_dot r3 with
       | None => None
       | Some r4 => g m' r4
       end)
  = g m rest.
Proof.
  intros Hm.
  assert (Hn : exists n : nat, m = Z.of_nat n /\ (1 <= n <= 12)%nat)
    by (exists (Z.to_nat m); lia).
  destruct Hn as (n & -> & Hn).
  destruct n as [|n]; [lia|].
  do 12 (destruct n as [|n];
         [cbv -[datetime.first_match]; cbn [datetime.first_match];
          destruct (g _ rest); reflexivity|]).
  lia.
Qed.



(** X2: [Birthday(value)] stores [None] and the empty string unchecked,
    stores a non-empty string when [strptime] reads it, and otherwise
    raises [ValueError] with "Birthday must be in format DD.MM.YYYY". *)
Theorem Birthday_init_spec (value : option pystr) :
  match Birthday.init value with
  | Ok b =>
      b = Birthday.mk value /\
      (value = None \/ value = Some [] \/
       exists s dt, value = Some s /\ datetime.strptime s = Some dt)
  | Raise e =>
      e = Exn ValueError (lit "Birthday must be in format DD.MM.YYYY") /\
      exists s, value = Some s /\ s <> [] /\ datetime.strptime s = None
  end.
Proof.
  destruct value as [[|c s]|]; simpl.
  - split; [reflexivity | right; left; reflexivity].
  - destruct (datetime.strptime (c :: s)) as [dt|] eqn:E; simpl.
    + split; [reflexivity|]. right; right. exists (c :: s), dt. tauto.
    + split; [reflexivity|]. exists (c :: s). repeat split; [discriminate | exact E].
  - split; [reflexivity | left; reflexivity].
Qed.

(** A birthday that [Birthday] accepted keeps the record valid. *)
Lemma Birthday_init_valid (value : option pystr) (b : Birthday.t)
  (r : Record.t) :
  Birthday.init value = Ok b ->
  b = Birthday.mk value /\
  birthday_valid (Record.mk (Record.name r) (Record.phones r) b).
Proof.
  unfold birthday_valid.
  destruct value as [[|c s]|]; simpl.
  - intros H; injection H as <-. simpl. split; [reflexivity | left; reflexivity].
  - destruct (datetime.strptime (c :: s)) as [dt|] eqn:E; simpl; [|discriminate].
    intros H; injection H as <-. simpl.
    split; [reflexivity | right; exists dt; exact E].
  - intros H; injection H as <-. simpl. split; [reflexivity | exact I].
Qed.

(** ** Record *)

Lemma set_phones_same (self : Record.t) :
  Record.set_phones self (Record.phones self) = self.
Proof. destruct self; reflexivity. Qed.

Lemma add_phone_Ok (self self' : Record.t) (number : pyval) :
  Record.add_phone self number = Ok self' ->
  exists s, number = VStr s /\ ten_digits s /\
    self' = Record.set_phones self (Record.phones self ++ [Phone.mk s]).
Proof.
  unfold Record.add_phone. intros H.
  destruct number as [| b | z | bs | s]; try discriminate H.
  destruct (Phone.init (VStr s)) as [phone|e] eqn:E; [|discriminate H].
  simpl in H. injection H as <-.
  unfold Phone.init in E.
  destruct (isdigit s) eqn:Hd; [|discriminate E].
  destruct (Z.of_nat (length s) =? 10) eqn:Hl; [|discriminate E].
  simpl in E. injection E as <-.
  exists s. split; [reflexivity|]. split; [|reflexivity].
  split; [apply Z.eqb_eq in Hl; lia | apply isdigit_Forall in Hd; tauto].
Qed.

Lemma find_in_Some (ps : list Phone.t) (number : pystr) (phone : Phone.t) :
  Record.find_in ps number = Some phone ->
  Phone.value phone = number /\ In phone ps.
Proof.
  induction ps as [|p rest IH]; simpl; [discriminate|].
  destruct (str_eqb (Phone.value p) number) eqn:E.
  - intros H; injection H as <-. apply str_eqb_eq in E. tauto.
  - intros H. destruct (IH H). tauto.
Qed.

Lemma find_in_app (ps qs : list Phone.t) (number : pystr) :
  Record.find_in (ps ++ qs) number =
  match Record.find_in ps number with
  | Some phone => Some phone
  | None => Record.find_in qs number
  end.
Proof.
  induction ps as [|p rest IH]; simpl; [reflexivity|].
  destruct (str_eqb (Phone.value p) number); [reflexivity | exact IH].
Qed.

(** X3: after [add_phone(number)] succeeded, [find_phone(number)] finds a
    phone with that value, the phones from before are kept in place with
    the new one last, and the search for any other number gives what it
    gave before. *)
Theorem find_phone_after_add_phone (self self' : Record.t) (s : pystr) :
  Record.add_phone self (VStr s) = Ok self' ->
  Record.numbers self' = Record.numbers self ++ [s] /\
  (exists phone, Record.find_phone self' s = Some phone /\
                 Phone.value phone = s) /\
  (forall other, other <> s ->
     Record.find_phone self' other = Record.find_phone self other).
Proof.
  intros Hadd. destruct (add_phone_Ok _ _ _ Hadd) as (s' & Hs & _ & ->).
  injection Hs as <-.
  unfold Record.numbers, Record.find_phone. simpl.
  split; [rewrite List.map_app; reflexivity|]. split.
  - rewrite find_in_app.
    destruct (Record.find_in (Record.phones self) s) as [phone|] eqn:E.
    + exists phone. split; [reflexivity | apply (find_in_Some _ _ _ E)].
    + simpl. rewrite str_eqb_refl. exists (Phone.mk s). split; reflexivity.
  - intros other Hne. rewrite find_in_app.
    destruct (Record.find_in (Record.phones self) other); [reflexivity|].
    simpl. apply not_eq_sym in Hne. apply str_eqb_neq in Hne. rewrite Hne.
    reflexivity.
Qed.

Lemma find_phone_after_add_phone_witness :
  Record.numbers (Record.mk (Name.mk (lit "alice")) [Phone.mk number_a]
                    (Birthday.mk None))
    = Record.numbers (Record.init (lit "alice")) ++ [number_a] /\
  (exists phone,
     Record.find_phone
       (Record.mk (Name.mk (lit "alice")) [Phone.mk number_a]
          (Birthday.mk None)) number_a = Some phone /\
     Phone.value phone = number_a) /\
  (forall other, other <> number_a ->
     Record.find_phone
       (Record.mk (Name.mk (lit "alice")) [Phone.mk number_a]
          (Birthday.mk None)) other
     = Record.find_phone (Record.init (lit "alice")) other).
Proof.
  apply (find_phone_after_add_phone (Record.init (lit "alice"))
           (Record.mk (Name.mk (lit "alice")) [Phone.mk number_a]
              (Birthday.mk None)) number_a).
  reflexivity.
Defined.

Lemma remove_phone_present (self : Record.t) (number : pystr) :
  In number (Record.numbers self) ->
  exists before after self',
    Record.numbers self = before ++ number :: after /\
    ~ In number before /\
    Record.remove_phone self number = (self', true) /\
    Record.numbers self' = before ++ after /\
    Record.name self' = Record.name self /\
    Record.birthday self' = Record.birthday self.
Proof.
  intros Hin. unfold Record.remove_phone.
  destruct (remove_in_first _ _ Hin)
    as (before & phone & after & Hsplit & Hv & Hnot & Hrem).
  rewrite Hrem.
  exists (List.map Phone.value before), (List.map Phone.value after),
    (Record.set_phones self (before ++ after)).
  unfold Record.numbers. simpl. rewrite Hsplit, !List.map_app. simpl.
  rewrite Hv. repeat split; assumption.
Qed.

Lemma remove_phone_absent (self : Record.t) (number : pystr) :
  ~ In number (Record.numbers self) ->
  Record.remove_phone self number = (self, false).
Proof.
  intros Hn. unfold Record.remove_phone.
  rewrite (remove_in_absent _ _ Hn), set_phones_same. reflexivity.
Qed.

(** X4: [remove_phone(number)] returns [True] exactly when the number is
    in the list, and then takes out its first occurrence only, leaving
    the other phones in their order and the name and birthday as they
    were; for a number that is not in the list it returns [False] and
    changes nothing. *)
Theorem remove_phone_spec (self : Record.t) (number : pystr) :
  (In number (Record.numbers self) ->
   exists before after self',
     Record.numbers self = before ++ number :: after /\
     ~ In number before /\
     Record.remove_phone self number = (self', true) /\
     Record.numbers self' = before ++ after /\
     Record.name self' = Record.name self /\
     Record.birthday self' = Record.birthday self) /\
  (~ In number (Record.numbers self) ->
   Record.remove_phone self number = (self, false)).
Proof.
  split; [apply remove_phone_present | apply remove_phone_absent].
Qed.

(** X5: [remove_phone] right after [add_phone] of the same number
    returns [True] and removes one instance: the list is as long as
    before the two calls, and when the number was new the record is the
    one from before. *)
Theorem remove_phone_after_add_phone (self self1 : Record.t) (s : pystr) :
  Record.add_phone self (VStr s) = Ok self1 ->
  snd (Record.remove_phone self1 s) = true /\
  length (Record.phones (fst (Record.remove_phone self1 s)))
    = length (Record.phones self) /\
  (~ In s (Record.numbers self) ->
   fst (Record.remove_phone self1 s) = self).
Proof.
  intros Hadd. destruct (add_phone_Ok _ _ _ Hadd) as (s' & Hs & _ & ->).
  injection Hs as <-.
  assert (Hin : In s (Record.numbers
                        (Record.set_phones self
                           (Record.phones self ++ [Phone.mk s])))).
  { unfold Record.numbers. simpl. rewrite List.map_app, in_app_iff.
    right; left; reflexivity. }
  destruct (remove_phone_present _ _ Hin)
    as (before & after & self' & Hnum & Hnot & Hrem & Hnum' & _ & _).
  rewrite Hrem. simpl. split; [reflexivity|]. split.
  - apply (f_equal (@length pystr)) in Hnum, Hnum'.
    unfold Record.numbers in Hnum, Hnum'. simpl in Hnum.
    rewrite ?List.length_map, ?List.length_app in Hnum, Hnum'.
    simpl in Hnum. rewrite List.length_app in Hnum. simpl in Hnum. lia.
  - intros Habsent. clear Hnum Hnot Hnum'.
    unfold Record.remove_phone in Hrem. simpl in Hrem.
    assert (Hrem_in :
      Record.remove_in (Record.phones self ++ [Phone.mk s]) s
      = (Record.phones self, true)).
    { unfold Record.numbers in Habsent. clear - Habsent.
      induction (Record.phones self) as [|p ps IH]; simpl in *.
      - rewrite str_eqb_refl. reflexivity.
      - destruct (str_eqb (Phone.value p) s) eqn:E.
        + apply str_eqb_eq in E. tauto.
        + rewrite IH by tauto. reflexivity. }
    rewrite Hrem_in in Hrem. injection Hrem as <-.
    destruct self; reflexivity.
Qed.

Lemma remove_phone_after_add_phone_witness :
  snd (Record.remove_phone
         (Record.mk (Name.mk (lit "alice")) [Phone.mk number_a]
            (Birthday.mk None)) number_a) = true /\
  length (Record.phones
            (fst (Record.remove_phone
                    (Record.mk (Name.mk (lit "alice")) [Phone.mk number_a]
                       (Birthday.mk None)) number_a)))
    = length (Record.phones (Record.init (lit "alice"))) /\
  (~ In number_a (Record.numbers (Record.init (lit "alice"))) ->
   fst (Record.remove_phone
          (Record.mk (Name.mk (lit "alice")) [Phone.mk number_a]
             (Birthday.mk None)) number_a)
   = Record.init (lit "alice")).
Proof.
  apply (remove_phone_after_add_phone (Record.init (lit "alice"))
           (Record.mk (Name.mk (lit "alice")) [Phone.mk number_a]
              (Birthday.mk None)) number_a).
  reflexivity.
Defined.

Lemma phones_valid_add_phone (self self' : Record.t) (number : pyval) :
  phones_valid self -> Record.add_phone self number = Ok self' ->
  phones_valid self'.
Proof.
  intros Hv Hadd. destruct (add_phone_Ok _ _ _ Hadd) as (s & _ & Hten & ->).
  unfold phones_valid in *. simpl. apply Forall_app. split; [exact Hv|].
  constructor; [exact Hten | constructor].
Qed.

Lemma remove_in_incl (ps : list Phone.t) (number : pystr) (p : Phone.t) :
  In p (fst (Record.remove_in ps number)) -> In p ps.
Proof.
  induction ps as [|q rest IH]; simpl; [tauto|].
  destruct (str_eqb (Phone.value q) number).
  - simpl. tauto.
  - destruct (Record.remove_in rest number) as [rest' removed]. simpl in *.
    intros [H | H]; [left; exact H | right; apply IH, H].
Qed.

Lemma phones_valid_remove_phone (self : Record.t) (number : pystr) :
  phones_valid self -> phones_valid (fst (Record.remove_phone self number)).
Proof.
  unfold phones_valid, Record.remove_phone. intros Hv.
  destruct (Record.remove_in (Record.phones self) number) as [ps removed] eqn:E.
  simpl. rewrite List.Forall_forall in *. intros p Hp. apply Hv.
  apply (remove_in_incl _ number). rewrite E. exact Hp.
Qed.

Lemma edit_phone_Ok (self self' : Record.t) (old : pystr) (new : pyval) :
  Record.edit_phone self old new = Ok self' ->
  exists self1,
    Record.add_phone self new = Ok self1 /\
    self' = fst (Record.remove_phone self1 old).
Proof.
  unfold Record.edit_phone.
  destruct (Record.find_phone self old); [|discriminate]. simpl.
  destruct (Record.add_phone self new) as [self1|e]; [|discriminate]. simpl.
  intros H; injection H as <-. exists self1. split; reflexivity.
Qed.

(** X6: the methods of a record keep the invariant of the phone list:
    a new record has no phone, and when every phone is a string of ten
    digits before [add_phone], [remove_phone], [edit_phone] or
    [add_birthday], the same holds of the record they leave. *)
Theorem phones_stay_valid (self : Record.t) :
  (forall name, phones_valid (Record.init name)) /\
  (phones_valid self ->
   (forall number self',
      Record.add_phone self number = Ok self' -> phones_valid self') /\
   (forall number, phones_valid (fst (Record.remove_phone self number))) /\
   (forall old new self',
      Record.edit_phone self old new = Ok self' -> phones_valid self') /\
   (forall value self',
      Record.add_birthday self value = Ok self' -> phones_valid self')).
Proof.
  split; [intros name; constructor|].
  intros Hv. repeat split.
  - intros number self' Hadd. exact (phones_valid_add_phone _ _ _ Hv Hadd).
  - intros number. apply phones_valid_remove_phone, Hv.
  - intros old new self' Hedit.
    destruct (edit_phone_Ok _ _ _ _ Hedit) as (self1 & Hadd & ->).
    apply phones_valid_remove_phone.
    exact (phones_valid_add_phone _ _ _ Hv Hadd).
  - intros value self'. unfold Record.add_birthday.
    destruct (Birthday.init value); [|discriminate]. simpl.
    intros H; injection H as <-. exact Hv.
Qed.

(** ** AddressBook *)

Lemma dict_get_set_ne (d : AddressBook.t) (k k' : pystr) (v : Record.t) :
  k <> k' ->
  AddressBook.dict_get (AddressBook.dict_set d k v) k'
  = AddressBook.dict_get d k'.
Proof.
  intros Hne. induction d as [|[k0 v0] rest IH]; simpl.
  - apply str_eqb_neq in Hne. rewrite Hne. reflexivity.
  - destruct (str_eqb k0 k) eqn:E; simpl.
    + apply str_eqb_eq in E. subst k0.
      apply str_eqb_neq in Hne. rewrite Hne. reflexivity.
    + rewrite IH. reflexivity.
Qed.

Lemma dict_get_None (d : AddressBook.t) (k : pystr) :
  AddressBook.dict_get d k = None <-> ~ In k (keys d).
Proof.
  induction d as [|[k0 v0] rest IH]; simpl; [tauto|].
  destruct (str_eqb k0 k) eqn:E.
  - apply str_eqb_eq in E. split; [discriminate | tauto].
  - apply str_eqb_neq in E. rewrite IH. tauto.
Qed.

Lemma dict_get_In (d : AddressBook.t) (k : pystr) (v : Record.t) :
  AddressBook.dict_get d k = Some v -> In (k, v) d.
Proof.
  induction d as [|[k0 v0] rest IH]; simpl; [discriminate|].
  destruct (str_eqb k0 k) eqn:E.
  - apply str_eqb_eq in E. intros H; injection H as <-. left; congruence.
  - intros H. right. apply IH, H.
Qed.

(** Writing under a name that is there keeps the names and their order. *)
Lemma dict_set_keys_present (d : AddressBook.t) (k : pystr) (v : Record.t) :
  In k (keys d) -> keys (AddressBook.dict_set d k v) = keys d.
Proof.
  unfold keys. induction d as [|[k0 v0] rest IH]; simpl; [tauto|].
  destruct (str_eqb k0 k) eqn:E; simpl.
  - reflexivity.
  - apply str_eqb_neq in E. intros [H | H]; [congruence|].
    rewrite (IH H). reflexivity.
Qed.

Lemma dict_set_keys (d : AddressBook.t) (k : pystr) (v : Record.t) :
  (In k (keys d) /\ keys (AddressBook.dict_set d k v) = keys d) \/
  (~ In k (keys d) /\ keys (AddressBook.dict_set d k v) = keys d ++ [k]).
Proof.
  destruct (AddressBook.dict_get d k) as [r|] eqn:E.
  - left. assert (Hin : In k (keys d)).
    { apply dict_get_In in E. unfold keys.
      change k with (fst (k, r)). apply in_map, E. }
    split; [exact Hin | apply dict_set_keys_present, Hin].
  - right. split; [apply dict_get_None, E|].
    rewrite (dict_set_new _ _ _ E). unfold keys. rewrite List.map_app.
    reflexivity.
Qed.

Lemma dict_set_NoDup (d : AddressBook.t) (k : pystr) (v : Record.t) :
  NoDup (keys d) -> NoDup (keys (AddressBook.dict_set d k v)).
Proof.
  intros Hnd. destruct (dict_set_keys d k v) as [[_ ->] | [Hn ->]];
    [exact Hnd|].
  apply NoDup_app.
  - exact Hnd.
  - constructor; [intros [] | constructor].
  - intros x Hx [<- | []]. exact (Hn Hx).
Qed.

(** X7: [find] after [add_record] gives the record just stored under its
    name, and what [find] gives for every other name is unchanged. *)
Theorem find_after_add_record (book : AddressBook.t) (record : Record.t) :
  AddressBook.find (AddressBook.add_record book record)
    (Name.value (Record.name record)) = Some record /\
  forall other, other <> Name.value (Record.name record) ->
    AddressBook.find (AddressBook.add_record book record) other
    = AddressBook.find book other.
Proof.
  unfold AddressBook.find, AddressBook.add_record. split.
  - apply dict_get_set_eq.
  - intros other Hne. apply dict_get_set_ne. congruence.
Qed.

(** X8: [add_record] under a name the book has replaces the record in
    place (names and their order stay); under a new name it puts the
    record last; no name ever occurs twice. *)
Theorem add_record_keys (book : AddressBook.t) (record : Record.t) :
  let name := Name.value (Record.name record) in
  (In name (keys book) ->
   keys (AddressBook.add_record book record) = keys book) /\
  (~ In name (keys book) ->
   AddressBook.add_record book record = book ++ [(name, record)]) /\
  (NoDup (keys book) -> NoDup (keys (AddressBook.add_record book record))).
Proof.
  cbv zeta. unfold AddressBook.add_record. repeat split.
  - apply dict_set_keys_present.
  - intros Hn. apply dict_set_new, dict_get_None, Hn.
  - apply dict_set_NoDup.
Qed.

Lemma dict_del_get (d : AddressBook.t) (k : pystr) :
  NoDup (keys d) ->
  AddressBook.dict_get (AddressBook.dict_del d k) k = None /\
  (forall other, other <> k ->
     AddressBook.dict_get (AddressBook.dict_del d k) other
     = AddressBook.dict_get d other) /\
  NoDup (keys (AddressBook.dict_del d k)) /\
  (forall x, In x (keys (AddressBook.dict_del d k)) -> In x (keys d)).
Proof.
  induction d as [|[k0 v0] rest IH]; simpl; intros Hnd.
  - repeat split; try tauto; try constructor.
  - inversion Hnd as [|? ? Hnotin Hnd']; subst.
    destruct (IH Hnd') as (Hget & Hother & Hnd'' & Hincl).
    destruct (str_eqb k0 k) eqn:E; simpl.
    + apply str_eqb_eq in E. subst k0. repeat split.
      * apply dict_get_None, Hnotin.
      * intros other Hne. apply not_eq_sym in Hne.
        apply str_eqb_neq in Hne. rewrite Hne. reflexivity.
      * exact Hnd'.
      * tauto.
    + rewrite E. repeat split.
      * exact Hget.
      * intros other Hne. destruct (str_eqb k0 other); [reflexivity|].
        apply Hother, Hne.
      * constructor; [|exact Hnd'']. intros Hin. apply Hnotin, Hincl, Hin.
      * intros x [H | H]; [left; exact H | right; apply Hincl, H].
Qed.

(** X9: [delete(name)] raises [ValueError] "Record with name {name} not
    found." when the name is not in the book; when it is, the book that
    is left has no record under that name and the same records under
    every other name. *)
Theorem delete_spec (book : AddressBook.t) (name : pystr) :
  NoDup (keys book) ->
  (AddressBook.find book name = None ->
   AddressBook.delete book name =
   Raise (Exn ValueError
            (lit "Record with name " ++ name ++ lit " not found."))) /\
  (forall record, AddressBook.find book name = Some record ->
   exists book',
     AddressBook.delete book name = Ok book' /\
     AddressBook.find book' name = None /\
     (forall other, other <> name ->
        AddressBook.find book' other = AddressBook.find book other) /\
     NoDup (keys book') /\
     (length book' + 1 = length book)%nat).
Proof.
  intros Hnd. unfold AddressBook.delete, AddressBook.find. split.
  - intros ->. reflexivity.
  - intros record Hfind. rewrite Hfind.
    exists (AddressBook.dict_del book name).
    destruct (dict_del_get book name Hnd) as (Hget & Hother & Hnd' & _).
    repeat split; try assumption.
    clear - Hfind. revert Hfind.
    induction book as [|[k0 v0] rest IH]; simpl; [discriminate|].
    destruct (str_eqb k0 name); [intros _; lia|].
    intros H. simpl. rewrite <- (IH H). lia.
Qed.

Lemma delete_spec_witness :
  (AddressBook.find book_with_leap_day (lit "bob") = None ->
   AddressBook.delete book_with_leap_day (lit "bob") =
   Raise (Exn ValueError
            (lit "Record with name " ++ lit "bob" ++ lit " not found."))) /\
  (forall record,
   AddressBook.find book_with_leap_day (lit "bob") = Some record ->
   exists book',
     AddressBook.delete book_with_leap_day (lit "bob") = Ok book' /\
     AddressBook.find book' (lit "bob") = None /\
     (forall other, other <> lit "bob" ->
        AddressBook.find book' other
        = AddressBook.find book_with_leap_day other) /\
     NoDup (keys book') /\
     (length book' + 1 = length book_with_leap_day)%nat).
Proof.
  apply (delete_spec book_with_leap_day (lit "bob")).
  repeat constructor; simpl; intuition discriminate.
Defined.

(** ** Upcoming birthdays, for every book *)

Lemma visit_no_birthday (today : datetime.t) (record : Record.t)
  (upcoming : list AddressBook.entry) :
  opt_truthy (Birthday.value (Record.birthday record)) = false ->
  AddressBook.visit today record upcoming = Ok upcoming.
Proof.
  intros H. unfold AddressBook.visit. rewrite H, andb_false_r. reflexivity.
Qed.

Lemma visit_unparsed (today : datetime.t) (record : Record.t) (s : pystr)
  (upcoming : list AddressBook.entry) :
  Birthday.value (Record.birthday record) = Some s ->
  datetime.strptime s = None ->
  AddressBook.visit today record upcoming = Ok upcoming.
Proof.
  intros Hv Hp. unfold AddressBook.visit. rewrite Hv.
  destruct (object_truthy (Record.birthday record) && opt_truthy (Some s));
    [rewrite Hp|]; reflexivity.
Qed.

(** A record is skipped, or its birthday reads as a date. *)
Lemma visit_cases (today : datetime.t) (record : Record.t) :
  (forall upcoming, AddressBook.visit today record upcoming = Ok upcoming) \/
  (exists s dt, Birthday.value (Record.birthday record) = Some s /\
                datetime.strptime s = Some dt).
Proof.
  destruct (Birthday.value (Record.birthday record)) as [s|] eqn:Hv.
  - destruct (datetime.strptime s) as [dt|] eqn:Hp.
    + right. exists s, dt. tauto.
    + left. intros upcoming. exact (visit_unparsed _ _ _ _ Hv Hp).
  - left. intros upcoming. apply visit_no_birthday. rewrite Hv. reflexivity.
Qed.

Lemma replace_year_cases (dt : datetime.t) (y : Z) :
  datetime.MINYEAR <= y <= datetime.MAXYEAR ->
  1 <= datetime.month dt <= 12 ->
  (datetime.replace_year dt y =
     Ok (datetime.mk y (datetime.month dt) (datetime.day dt) (datetime.hour dt)
           (datetime.minute dt) (datetime.second dt) (datetime.microsecond dt))
   /\ datetime.valid_date y (datetime.month dt) (datetime.day dt) = true) \/
  datetime.replace_year dt y =
    Raise (Exn ValueError (lit "day is out of range for month")).
Proof.
  intros Hy Hm. unfold datetime.replace_year, datetime.valid_date.
  replace ((datetime.MINYEAR <=? y) && (y <=? datetime.MAXYEAR)) with true
    by (symmetry; rewrite andb_true_iff, !Z.leb_le; lia).
  replace (1 <=? datetime.month dt) with true by (symmetry; apply Z.leb_le; lia).
  replace (datetime.month dt <=? 12) with true
    by (symmetry; apply Z.leb_le; lia).
  cbn [negb andb].
  destruct ((1 <=? datetime.day dt)
            && (datetime.day dt <=? datetime.days_in_month y (datetime.month dt)))
    eqn:E; cbn [negb].
  - left. split; reflexivity.
  - right. reflexivity.
Qed.

(** The occurrence, when it is found, is a date of the calendar at
    midnight, in the year of the clock or the next. *)
Lemma this_year_occurrence_cases (today birthday_date : datetime.t) :
  datetime.valid today = true ->
  datetime.year today < datetime.MAXYEAR ->
  1 <= datetime.month birthday_date <= 12 ->
  datetime.time_of_day birthday_date = 0 ->
  (exists occurrence,
     AddressBook.this_year_occurrence today birthday_date = Ok occurrence /\
     datetime.valid_date (datetime.year occurrence)
       (datetime.month occurrence) (datetime.day occurrence) = true /\
     datetime.year occurrence <= datetime.year today + 1 /\
     datetime.time_of_day occurrence = 0) \/
  AddressBook.this_year_occurrence today birthday_date =
    Raise (Exn ValueError (lit "day is out of range for month")).
Proof.
  intros Hvalid Hyear Hm Ht.
  assert (Hy : datetime.MINYEAR <= datetime.year today <= datetime.MAXYEAR).
  { unfold datetime.valid, datetime.valid_date in Hvalid.
    rewrite !andb_true_iff, !Z.leb_le in Hvalid. lia. }
  unfold AddressBook.this_year_occurrence.
  destruct (replace_year_cases birthday_date (datetime.year today) Hy Hm)
    as [[-> Hv] | ->]; [|right; reflexivity].
  cbn [bind].
  match goal with |- context [datetime.ltb ?a ?b] =>
    destruct (datetime.ltb a b) end.
  - match goal with |- context [datetime.replace_year ?a ?y] =>
      destruct (replace_year_cases a y) as [[-> Hv'] | ->] end;
      cbn [datetime.month]; unfold datetime.MINYEAR, datetime.MAXYEAR in *;
      try lia; [|right; reflexivity].
    left. eexists. split; [reflexivity|]. cbn. repeat split; try lia.
    + exact Hv'.
    + exact Ht.
  - left. eexists. split; [reflexivity|]. cbn. repeat split; try lia.
    + exact Hv.
    + exact Ht.
Qed.

(** Before the last two years of the calendar a record is put in the
    list with a date that may be reported, or left out, or the call
    fails on a 29 February. *)
Lemma visit_outcome (today : datetime.t) (record : Record.t)
  (upcoming : list AddressBook.entry) :
  datetime.valid today = true ->
  datetime.year today < datetime.MAXYEAR - 1 ->
  AddressBook.visit today record upcoming = Ok upcoming \/
  (exists text,
     AddressBook.visit today record upcoming =
       Ok (upcoming ++
           [AddressBook.mk_entry (Name.value (Record.name record)) text]) /\
     reportable today text) \/
  (AddressBook.visit today record upcoming =
     Raise (Exn ValueError (lit "day is out of range for month")) /\
   born_on_leap_day record).
Proof.
  intros Hvalid Hyear.
  destruct (visit_cases today record) as [Hskip | (s & dt & Hv & Hp)];
    [left; apply Hskip|].
  destruct (strptime_Some _ _ Hp) as (_ & Hdate & Hshape).
  assert (Hm : 1 <= datetime.month dt <= 12).
  { unfold datetime.valid_date in Hdate.
    rewrite !andb_true_iff, !Z.leb_le in Hdate. lia. }
  assert (Ht : datetime.time_of_day dt = 0) by (rewrite Hshape; reflexivity).
  rewrite (visit_parsed _ _ _ _ _ Hv Hp).
  destruct (this_year_occurrence_cases today dt Hvalid
              ltac:(unfold datetime.MAXYEAR in *; lia) Hm Ht)
    as [(occ & Hocc & Hvocc & Hyocc & Htocc) | Hraise].
  - rewrite Hocc. cbn [bind].
    destruct (weekend_shift_total occ Hvocc
                ltac:(unfold datetime.MAXYEAR in *; lia)) as (sh & Hsh).
    rewrite Hsh. cbn [bind]. cbv zeta.
    destruct (weekend_shift_working_day _ _ Hsh) as (Hwd & _ & Htsh).
    unfold datetime.valid in Hvalid. apply andb_true_iff in Hvalid.
    pose proof (sub_days_midnight_bounds sh today ltac:(congruence)
                  (valid_time_of_day _ (proj2 Hvalid))) as Hb.
    destruct (0 <=? datetime.sub_days sh today) eqn:Hlo;
      destruct (datetime.sub_days sh today <=? 7) eqn:Hhi; cbn [andb];
      try (left; reflexivity).
    right; left. exists (datetime.strftime sh). split; [reflexivity|].
    exists sh. apply Z.leb_le in Hlo, Hhi.
    split; [reflexivity|]. split; [exact Hwd | lia].
  - right; right. rewrite Hraise. split; [reflexivity|].
    exists s, dt. split; [exact Hv|]. split; [exact Hp|].
    (* only a 29 February fails to exist in some year *)
    destruct (Z.eq_dec (datetime.month dt) 2) as [Hm2|Hm2];
      destruct (Z.eq_dec (datetime.day dt) 29) as [Hd29|Hd29]; try tauto;
      exfalso;
      destruct (this_year_occurrence_total today dt Hvalid Hdate
                  ltac:(tauto) ltac:(unfold datetime.MAXYEAR in *; lia))
        as (occ & Hocc & _); congruence.
Qed.

Lemma replace_year_Ok (dt dt' : datetime.t) (y : Z) :
  datetime.replace_year dt y = Ok dt' ->
  datetime.time_of_day dt' = datetime.time_of_day dt.
Proof.
  unfold datetime.replace_year.
  repeat match goal with
         | |- (if ?c then _ else _) = _ -> _ => destruct c; [discriminate|]
         end.
  intros H; injection H as <-. reflexivity.
Qed.

Lemma this_year_occurrence_Ok (today birthday_date occurrence : datetime.t) :
  AddressBook.this_year_occurrence today birthday_date = Ok occurrence ->
  datetime.time_of_day occurrence = datetime.time_of_day birthday_date.
Proof.
  unfold AddressBook.this_year_occurrence.
  destruct (datetime.replace_year birthday_date (datetime.year today))
    as [b0|e] eqn:E0; [|discriminate]. cbn [bind].
  apply replace_year_Ok in E0.
  destruct (datetime.ltb b0 today).
  - intros E1. apply replace_year_Ok in E1. congruence.
  - intros H; injection H as <-. exact E0.
Qed.

(** When [visit] returns, the list is as it was or has one more item,
    under the name of the record and with a date that may be reported. *)
Lemma visit_Ok (today : datetime.t) (record : Record.t)
  (upcoming out : list AddressBook.entry) :
  datetime.valid_time today = true ->
  AddressBook.visit today record upcoming = Ok out ->
  out = upcoming \/
  exists text,
    out = upcoming ++
          [AddressBook.mk_entry (Name.value (Record.name record)) text] /\
    reportable today text.
Proof.
  intros Htime Hvisit.
  destruct (visit_cases today record) as [Hskip | (s & dt & Hv & Hp)].
  - rewrite Hskip in Hvisit. injection Hvisit as <-. left; reflexivity.
  - rewrite (visit_parsed _ _ _ _ _ Hv Hp) in Hvisit.
    destruct (AddressBook.this_year_occurrence today dt) as [occ|e] eqn:Hocc;
      [|discriminate Hvisit]. cbn [bind] in Hvisit.
    destruct (AddressBook.weekend_shift occ) as [sh|e] eqn:Hsh;
      [|discriminate Hvisit]. cbn [bind] in Hvisit. cbv zeta in Hvisit.
    injection Hvisit as <-.
    destruct (strptime_Some _ _ Hp) as (_ & _ & Hshape).
    assert (Ht : datetime.time_of_day dt = 0) by (rewrite Hshape; reflexivity).
    apply this_year_occurrence_Ok in Hocc.
    destruct (weekend_shift_working_day _ _ Hsh) as (Hwd & _ & Htsh).
    pose proof (sub_days_midnight_bounds sh today ltac:(congruence)
                  (valid_time_of_day _ Htime)) as Hb.
    destruct (0 <=? datetime.sub_days sh today) eqn:Hlo;
      destruct (datetime.sub_days sh today <=? 7) eqn:Hhi; cbn [andb];
      try (left; reflexivity).
    right. exists (datetime.strftime sh). split; [reflexivity|].
    exists sh. apply Z.leb_le in Hlo, Hhi.
    split; [reflexivity|]. split; [exact Hwd | lia].
Qed.

Lemma loop_Ok (today : datetime.t) (records : list Record.t)
  (upcoming out : list AddressBook.entry) :
  datetime.valid_time today = true ->
  AddressBook.loop today records upcoming = Ok out ->
  exists added,
    out = upcoming ++ added /\
    sublist (List.map AddressBook.entry_name added)
      (List.map (fun r => Name.value (Record.name r)) records) /\
    Forall (fun e => reportable today (AddressBook.entry_birthday e)) added.
Proof.
  intros Htime. revert upcoming.
  induction records as [|r rest IH]; intros upcoming Hloop; simpl in Hloop.
  - injection Hloop as <-. exists []. rewrite List.app_nil_r.
    split; [reflexivity|]. split; constructor.
  - destruct (AddressBook.visit today r upcoming) as [u|e] eqn:Hvisit;
      [|discriminate Hloop]. cbn [bind] in Hloop.
    destruct (IH _ Hloop) as (added & -> & Hsub & Hall).
    destruct (visit_Ok _ _ _ _ Htime Hvisit) as [-> | (text & -> & Hrep)].
    + exists added. split; [reflexivity|]. split; [|exact Hall].
      simpl. apply sublist_cons, Hsub.
    + exists (AddressBook.mk_entry (Name.value (Record.name r)) text :: added).
      rewrite <- List.app_assoc. split; [reflexivity|]. split.
      * simpl. apply sublist_skip, Hsub.
      * constructor; [exact Hrep | exact Hall].
Qed.

(** X10: a record with no birthday, with an empty one, or with a text
    that [strptime] does not read is passed over: the result for the
    book is the result for the book without that record. *)
Theorem records_without_date_are_skipped (today : datetime.t)
  (record : Record.t) (key : pystr) (before after : AddressBook.t) :
  (opt_truthy (Birthday.value (Record.birthday record)) = false \/
   exists s, Birthday.value (Record.birthday record) = Some s /\
             datetime.strptime s = None) ->
  AddressBook.get_upcoming_birthdays today (before ++ (key, record) :: after)
  = AddressBook.get_upcoming_birthdays today (before ++ after).
Proof.
  intros Hcase. apply skipped_record. intros upcoming.
  destruct Hcase as [H | (s & Hv & Hp)].
  - apply visit_no_birthday, H.
  - exact (visit_unparsed _ _ _ _ Hv Hp).
Qed.

Lemma records_without_date_are_skipped_witness :
  AddressBook.get_upcoming_birthdays morning_2023_06_10
    (book_of (record_born (lit "alice") (lit "12.06.1990")) ++
     (lit "carol", Record.init (lit "carol")) :: [])
  = AddressBook.get_upcoming_birthdays morning_2023_06_10
      (book_of (record_born (lit "alice") (lit "12.06.1990")) ++ []).
Proof.
  apply (records_without_date_are_skipped morning_2023_06_10
           (Record.init (lit "carol")) (lit "carol")).
  left. reflexivity.
Defined.



(** X12: with the clock before the year 9998 and no record born on a
    29 February, [get_upcoming_birthdays] returns a list. *)
Theorem upcoming_returns_without_leap_day (today : datetime.t)
  (book : AddressBook.t) :
  datetime.valid today = true ->
  datetime.year today < datetime.MAXYEAR - 1 ->
  (forall r, In r (AddressBook.values book) -> ~ born_on_leap_day r) ->
  exists out, AddressBook.get_upcoming_birthdays today book = Ok out.
Proof.
  intros Hvalid Hyear. unfold AddressBook.get_upcoming_birthdays.
  generalize (@nil AddressBook.entry) as upcoming.
  induction (AddressBook.values book) as [|r rest IH]; intros upcoming Hno;
    simpl.
  - eexists; reflexivity.
  - destruct (visit_outcome today r upcoming Hvalid Hyear)
      as [-> | [(text & -> & _) | (_ & Hleap)]]; cbn [bind].
    + apply IH. intros r' Hr'. apply Hno. right; exact Hr'.
    + apply IH. intros r' Hr'. apply Hno. right; exact Hr'.
    + exfalso. apply (Hno r); [left; reflexivity | exact Hleap].
Qed.

Lemma upcoming_returns_without_leap_day_witness :
  exists out,
    AddressBook.get_upcoming_birthdays morning_2023_06_10
      (book_of (record_born (lit "alice") (lit "12.06.1990"))) = Ok out.
Proof.
  apply (upcoming_returns_without_leap_day morning_2023_06_10
           (book_of (record_born (lit "alice") (lit "12.06.1990")))).
  - reflexivity.
  - reflexivity.
  - intros r [<- | []] (s & dt & Hv & Hp & Hm & _).
    injection Hv as <-. injection Hp as <-. discriminate Hm.
Defined.

Lemma visit_leap_day (today : datetime.t) (record : Record.t)
  (upcoming : list AddressBook.entry) :
  datetime.valid today = true ->
  datetime.is_leap (datetime.year today) = false ->
  born_on_leap_day record ->
  AddressBook.visit today record upcoming =
  Raise (Exn ValueError (lit "day is out of range for month")).
Proof.
  intros Hvalid Hleap (s & dt & Hv & Hp & Hm & Hd).
  rewrite (visit_parsed _ _ _ _ _ Hv Hp).
  unfold AddressBook.this_year_occurrence, datetime.replace_year.
  unfold datetime.valid, datetime.valid_date in Hvalid.
  rewrite !andb_true_iff in Hvalid.
  destruct Hvalid as [[[[[[-> ->] _] _] _] _] _].
  rewrite Hm, Hd. unfold datetime.days_in_month. rewrite Hleap. reflexivity.
Qed.

(** X13: in a year that is not a leap year (clock before the year 9998),
    a book that holds a record born on a 29 February makes
    [get_upcoming_birthdays] raise [ValueError] "day is out of range for
    month", whatever else the book holds. *)
Theorem upcoming_fails_with_leap_day (today : datetime.t)
  (book : AddressBook.t) (record : Record.t) :
  datetime.valid today = true ->
  datetime.year today < datetime.MAXYEAR - 1 ->
  datetime.is_leap (datetime.year today) = false ->
  In record (AddressBook.values book) ->
  born_on_leap_day record ->
  AddressBook.get_upcoming_birthdays today book =
  Raise (Exn ValueError (lit "day is out of range for month")).
Proof.
  intros Hvalid Hyear Hleap Hin Hborn.
  unfold AddressBook.get_upcoming_birthdays.
  generalize (@nil AddressBook.entry) as upcoming.
  induction (AddressBook.values book) as [|r rest IH]; intros upcoming;
    [destruct Hin|]. simpl.
  destruct (visit_outcome today r upcoming Hvalid Hyear)
    as [Hv | [(text & Hv & _) | (Hv & _)]].
  - destruct Hin as [-> | Hin].
    + rewrite (visit_leap_day _ _ _ Hvalid Hleap Hborn) in Hv. discriminate Hv.
    + rewrite Hv. cbn [bind]. apply IH, Hin.
  - destruct Hin as [-> | Hin].
    + rewrite (visit_leap_day _ _ _ Hvalid Hleap Hborn) in Hv. discriminate Hv.
    + rewrite Hv. cbn [bind]. apply IH, Hin.
  - rewrite Hv. reflexivity.
Qed.

Lemma upcoming_fails_with_leap_day_witness :
  AddressBook.get_upcoming_birthdays morning_2023_06_10 book_with_leap_day =
  Raise (Exn ValueError (lit "day is out of range for month")).
Proof.
  apply (upcoming_fails_with_leap_day morning_2023_06_10 book_with_leap_day
           (record_born (lit "bob") (lit "29.02.2000"))).
  - reflexivity.
  - reflexivity.
  - reflexivity.
  - right; left; reflexivity.
  - exists (lit "29.02.2000"), (datetime.mk 2000 2 29 0 0 0 0).
    repeat split.
Defined.

(** ** The handlers, for every book *)

Lemma dict_set_app_new (d : AddressBook.t) (k : pystr) (v v' : Record.t) :
  AddressBook.dict_get d k = None ->
  AddressBook.dict_set (d ++ [(k, v)]) k v' = d ++ [(k, v')].
Proof.
  induction d as [|[k0 v0] rest IH]; simpl.
  - rewrite str_eqb_refl. reflexivity.
  - destruct (str_eqb k0 k); [discriminate|].
    intros Hn. rewrite (IH Hn). reflexivity.
Qed.

Lemma add_phone_valid (self : Record.t) (s : pystr) :
  ten_digits s ->
  Record.add_phone self (VStr s)
  = Ok (Record.set_phones self (Record.phones self ++ [Phone.mk s])).
Proof.
  intros Hten. unfold Record.add_phone.
  rewrite (Phone_init_accepts s Hten). reflexivity.
Qed.

Lemma ten_digits_truthy (s : pystr) : ten_digits s -> str_truthy s = true.
Proof. intros [Hlen _]. destruct s; [discriminate Hlen | reflexivity]. Qed.

Lemma dict_get_app_new (d : AddressBook.t) (k : pystr) (v : Record.t) :
  AddressBook.dict_get d k = None ->
  AddressBook.dict_get (d ++ [(k, v)]) k = Some v.
Proof.
  intros Hn. rewrite <- (dict_set_new _ _ _ Hn). apply dict_get_set_eq.
Qed.

Lemma dict_get_keys (d : AddressBook.t) (k : pystr) (v : Record.t) :
  AddressBook.dict_get d k = Some v -> In k (keys d).
Proof.
  intros H. apply dict_get_In in H. unfold keys.
  change k with (fst (k, v)). apply in_map, H.
Qed.

Lemma add_contact_new (book : AddressBook.t) (name phone : pystr)
  (rest : list pystr) :
  ten_digits phone ->
  AddressBook.find book name = None ->
  add_contact (name :: phone :: rest) book =
  (lit "Contact added.",
   book ++ [(name, Record.mk (Name.mk name) [Phone.mk phone]
                     (Birthday.mk None))]).
Proof.
  intros Hten Hfind. unfold add_contact, add_contact_body.
  rewrite Hfind, (ten_digits_truthy _ Hten).
  rewrite add_phone_valid by exact Hten.
  unfold AddressBook.add_record. cbn [Record.init Record.name Name.value].
  rewrite (dict_set_new _ _ _ Hfind), (dict_set_app_new _ _ _ _ Hfind).
  reflexivity.
Qed.

Lemma add_contact_existing (book : AddressBook.t) (name phone : pystr)
  (rest : list pystr) (record : Record.t) :
  ten_digits phone ->
  AddressBook.find book name = Some record ->
  add_contact (name :: phone :: rest) book =
  (lit "Contact updated.",
   AddressBook.dict_set book name
     (Record.set_phones record (Record.phones record ++ [Phone.mk phone]))).
Proof.
  intros Hten Hfind. unfold add_contact, add_contact_body.
  rewrite Hfind, (ten_digits_truthy _ Hten).
  rewrite add_phone_valid by exact Hten. reflexivity.
Qed.

(** X14: [add] with a valid phone.  For a new name the answer is
    "Contact added." and the book gains, as its last item, a record with
    that one phone and no birthday; for a name the book has, the answer is
    "Contact updated." and the phone is put after the phones the record
    had, the record staying in its place. *)
Theorem add_contact_spec (book : AddressBook.t) (name phone : pystr)
  (rest : list pystr) :
  ten_digits phone ->
  (AddressBook.find book name = None ->
   add_contact (name :: phone :: rest) book =
   (lit "Contact added.",
    book ++ [(name, Record.mk (Name.mk name) [Phone.mk phone]
                      (Birthday.mk None))])) /\
  (forall record, AddressBook.find book name = Some record ->
   add_contact (name :: phone :: rest) book =
   (lit "Contact updated.",
    AddressBook.dict_set book name
      (Record.set_phones record (Record.phones record ++ [Phone.mk phone])))
   /\ keys (snd (add_contact (name :: phone :: rest) book)) = keys book).
Proof.
  intros Hten. split.
  - apply add_contact_new, Hten.
  - intros record Hfind.
    rewrite (add_contact_existing _ _ _ _ _ Hten Hfind).
    split; [reflexivity|]. cbn [snd].
    apply dict_set_keys_present. exact (dict_get_keys _ _ _ Hfind).
Qed.

Lemma add_contact_spec_witness :
  (AddressBook.find AddressBook.empty (lit "alice") = None ->
   add_contact [lit "alice"; number_a] AddressBook.empty =
   (lit "Contact added.",
    AddressBook.empty ++
    [(lit "alice", Record.mk (Name.mk (lit "alice")) [Phone.mk number_a]
                     (Birthday.mk None))])) /\
  (forall record,
   AddressBook.find AddressBook.empty (lit "alice") = Some record ->
   add_contact [lit "alice"; number_a] AddressBook.empty =
   (lit "Contact updated.",
    AddressBook.dict_set AddressBook.empty (lit "alice")
      (Record.set_phones record (Record.phones record ++ [Phone.mk number_a])))
   /\ keys (snd (add_contact [lit "alice"; number_a] AddressBook.empty))
      = keys AddressBook.empty).
Proof.
  apply (add_contact_spec AddressBook.empty (lit "alice") number_a []).
  split; [reflexivity | repeat constructor].
Defined.

(** X15: [add name a], then [add name b], then [phone name], for a name
    that was not in the book and two valid phones: the answers are
    "Contact added.", "Contact updated." and "Phone(s) for {name}: {a},
    {b}": the second phone is put beside the first. *)
Theorem add_twice_then_phone (book : AddressBook.t) (name a b : pystr) :
  AddressBook.find book name = None ->
  ten_digits a -> ten_digits b ->
  let '(m1, book1) := add_contact [name; a] book in
  let '(m2, book2) := add_contact [name; b] book1 in
  m1 = lit "Contact added." /\
  m2 = lit "Contact updated." /\
  show_phone [name] book2 =
    (lit "Phone(s) for " ++ name ++ lit ": " ++ a ++ lit ", " ++ b, book2) /\
  keys book2 = keys book ++ [name].
Proof.
  intros Hfind Ha Hb.
  rewrite (add_contact_new _ _ _ _ Ha Hfind).
  rewrite (add_contact_existing _ _ _ _ _ Hb
             (dict_get_app_new _ _ _ Hfind)).
  rewrite (dict_set_app_new _ _ _ _ Hfind).
  cbn [Record.set_phones Record.phones Record.name Record.birthday app].
  split; [reflexivity|]. split; [reflexivity|]. split.
  - unfold show_phone, show_phone_body.
    unfold AddressBook.find. rewrite (dict_get_app_new _ _ _ Hfind).
    reflexivity.
  - unfold keys. rewrite List.map_app. reflexivity.
Qed.

Lemma add_twice_then_phone_witness :
  let '(m1, book1) := add_contact [lit "alice"; number_a] AddressBook.empty in
  let '(m2, book2) := add_contact [lit "alice"; number_b] book1 in
  m1 = lit "Contact added." /\
  m2 = lit "Contact updated." /\
  show_phone [lit "alice"] book2 =
    (lit "Phone(s) for " ++ lit "alice" ++ lit ": " ++ number_a ++ lit ", " ++
     number_b, book2) /\
  keys book2 = keys AddressBook.empty ++ [lit "alice"].
Proof.
  apply (add_twice_then_phone AddressBook.empty (lit "alice") number_a number_b).
  - reflexivity.
  - split; [reflexivity | repeat constructor].
  - split; [reflexivity | repeat constructor].
Defined.

Lemma add_phone_invalid (self : Record.t) (s : pystr) :
  ~ ten_digits s ->
  Record.add_phone self (VStr s)
  = Raise (Exn ValueError Phone.DIGITS_ERROR).
Proof.
  intros Hn. unfold Record.add_phone.
  rewrite (Phone_init_rejects s Hn). reflexivity.
Qed.

Lemma find_in_present (ps : list Phone.t) (number : pystr) :
  In number (List.map Phone.value ps) ->
  exists phone, Record.find_in ps number = Some phone.
Proof.
  intros Hin. destruct (Record.find_in ps number) as [phone|] eqn:E.
  - exists phone. reflexivity.
  - apply find_in_None in E. contradiction.
Qed.

(** X16: [change name old new] for a name the book has.  When the record
    does not hold [old] the answer is "ValueError: Old number {old} not
    found"; when it does and [new] is not a valid phone the answer is
    "ValueError: The phone number must be a string of 10 digits"; in both
    cases the book is unchanged.  Otherwise the answer is "Contact
    updated.", the record has [new] last and the first [old] removed, and
    [phone name] lists the numbers so changed. *)
Theorem change_contact_spec (book : AddressBook.t) (name old new : pystr)
  (record : Record.t) :
  AddressBook.find book name = Some record ->
  (~ In old (Record.numbers record) ->
   change_contact [name; old; new] book =
   (lit "ValueError: Old number " ++ old ++ lit " not found", book)) /\
  (In old (Record.numbers record) -> ~ ten_digits new ->
   change_contact [name; old; new] book =
   (lit "ValueError: The phone number must be a string of 10 digits", book)) /\
  (In old (Record.numbers record) -> ten_digits new ->
   exists before after book',
     Record.numbers record = before ++ old :: after /\
     ~ In old before /\
     change_contact [name; old; new] book = (lit "Contact updated.", book') /\
     keys book' = keys book /\
     show_phone [name] book' =
       (lit "Phone(s) for " ++ name ++ lit ": " ++
        join (lit ", ") (before ++ after ++ [new]), book')).
Proof.
  intros Hfind. unfold change_contact, change_contact_body.
  rewrite Hfind. repeat split.
  - intros Habsent. rewrite (edit_phone_absent _ _ _ Habsent). reflexivity.
  - intros Hin Hbad. unfold Record.edit_phone, Record.find_phone.
    destruct (find_in_present _ _ Hin) as (phone & ->). simpl.
    rewrite (add_phone_invalid _ _ Hbad). reflexivity.
  - intros Hin Hten.
    destruct (edit_phone_present record old (VStr new) (Phone.mk new) Hin
                (Phone_init_accepts new Hten))
      as (before & after & record' & Hnum & Hnot & Hedit & Hnum' & _).
    exists before, after, (AddressBook.dict_set book name record').
    rewrite Hedit. cbn [input_error fst snd].
    split; [exact Hnum|]. split; [exact Hnot|]. split; [reflexivity|].
    split; [apply dict_set_keys_present; exact (dict_get_keys _ _ _ Hfind)|].
    unfold show_phone, show_phone_body, AddressBook.find.
    rewrite dict_get_set_eq, Hnum'. reflexivity.
Qed.

Lemma change_contact_spec_witness :
  (~ In number_a (Record.numbers record_without_birthday) ->
   change_contact [lit "alice"; number_a; number_b]
     (book_of record_without_birthday) =
   (lit "ValueError: Old number " ++ number_a ++ lit " not found",
    book_of record_without_birthday)) /\
  (In number_a (Record.numbers record_without_birthday) ->
   ~ ten_digits number_b ->
   change_contact [lit "alice"; number_a; number_b]
     (book_of record_without_birthday) =
   (lit "ValueError: The phone number must be a string of 10 digits",
    book_of record_without_birthday)) /\
  (In number_a (Record.numbers record_without_birthday) ->
   ten_digits number_b ->
   exists before after book',
     Record.numbers record_without_birthday = before ++ number_a :: after /\
     ~ In number_a before /\
     change_contact [lit "alice"; number_a; number_b]
       (book_of record_without_birthday) = (lit "Contact updated.", book') /\
     keys book' = keys (book_of record_without_birthday) /\
     show_phone [lit "alice"] book' =
       (lit "Phone(s) for " ++ lit "alice" ++ lit ": " ++
        join (lit ", ") (before ++ after ++ [number_b]), book')).
Proof.
  apply (change_contact_spec (book_of record_without_birthday) (lit "alice")
           number_a number_b record_without_birthday).
  reflexivity.
Defined.

Lemma add_birthday_Ok (self self' : Record.t) (value : option pystr) :
  Record.add_birthday self value = Ok self' ->
  exists b, Birthday.init value = Ok b /\
            self' = Record.mk (Record.name self) (Record.phones self) b.
Proof.
  unfold Record.add_birthday.
  destruct (Birthday.init value) as [b|e]; [|discriminate]. simpl.
  intros H; injection H as <-. exists b. split; reflexivity.
Qed.

(** X17: [add-birthday name date] for a name the book has.  When
    [Birthday] takes the date the answer is "Birthday {date} added to
    contact {name}." and [show-birthday name] then answers "Birthday of
    {name}: {date}"; the phones of the record are kept.  When the date is
    a text that [strptime] does not read the answer is "ValueError:
    Birthday must be in format DD.MM.YYYY" and the book is unchanged. *)
Theorem add_birthday_then_show_birthday (book : AddressBook.t)
  (name date : pystr) (record : Record.t) :
  AddressBook.find book name = Some record ->
  ((date = [] \/ exists dt, datetime.strptime date = Some dt) ->
   let book' :=
     AddressBook.dict_set book name
       (Record.mk (Record.name record) (Record.phones record)
          (Birthday.mk (Some date))) in
   add_birthday [name; date] book =
     (lit "Birthday " ++ date ++ lit " added to contact " ++ name ++ lit ".",
      book') /\
   show_birthday [name] book' =
     (lit "Birthday of " ++ name ++ lit ": " ++ date, book') /\
   keys book' = keys book) /\
  (date <> [] -> datetime.strptime date = None ->
   add_birthday [name; date] book =
     (lit "ValueError: Birthday must be in format DD.MM.YYYY", book)).
Proof.
  intros Hfind. split.
  - intros Hok. cbv zeta.
    assert (Hinit : Birthday.init (Some date) = Ok (Birthday.mk (Some date))).
    { destruct Hok as [-> | (dt & Hp)]; [reflexivity|].
      simpl. destruct (str_truthy date); [rewrite Hp|]; reflexivity. }
    unfold add_birthday, add_birthday_body. rewrite Hfind.
    unfold Record.add_birthday. rewrite Hinit. cbn [bind input_error fst snd].
    split; [reflexivity|]. split.
    + unfold show_birthday, show_birthday_body, AddressBook.find.
      rewrite dict_get_set_eq. reflexivity.
    + apply dict_set_keys_present. exact (dict_get_keys _ _ _ Hfind).
  - intros Hne Hp. unfold add_birthday, add_birthday_body. rewrite Hfind.
    unfold Record.add_birthday. simpl.
    destruct date as [|c date]; [congruence|]. simpl str_truthy. cbv iota.
    rewrite Hp. reflexivity.
Qed.

Lemma add_birthday_then_show_birthday_witness :
  ((lit "12.06.1990" = [] \/
    exists dt, datetime.strptime (lit "12.06.1990") = Some dt) ->
   let book' :=
     AddressBook.dict_set (book_of record_without_birthday) (lit "alice")
       (Record.mk (Record.name record_without_birthday)
          (Record.phones record_without_birthday)
          (Birthday.mk (Some (lit "12.06.1990")))) in
   add_birthday [lit "alice"; lit "12.06.1990"]
     (book_of record_without_birthday) =
     (lit "Birthday " ++ lit "12.06.1990" ++ lit " added to contact " ++
      lit "alice" ++ lit ".", book') /\
   show_birthday [lit "alice"] book' =
     (lit "Birthday of " ++ lit "alice" ++ lit ": " ++ lit "12.06.1990",
      book') /\
   keys book' = keys (book_of record_without_birthday)) /\
  (lit "12.06.1990" <> [] -> datetime.strptime (lit "12.06.1990") = None ->
   add_birthday [lit "alice"; lit "12.06.1990"]
     (book_of record_without_birthday) =
     (lit "ValueError: Birthday must be in format DD.MM.YYYY",
      book_of record_without_birthday)).
Proof.
  apply (add_birthday_then_show_birthday (book_of record_without_birthday)
           (lit "alice") (lit "12.06.1990") record_without_birthday).
  reflexivity.
Defined.

(** X18: [show-birthday name] for a name the book has never answers "No
    birthday found": the test on [record.birthday] is a test on an object
    and is always true, so the answer is "Birthday of {name}: " followed
    by the stored text, or by "None" when no birthday was set. *)
Theorem show_birthday_of_known_name (book : AddressBook.t) (name : pystr)
  (rest : list pystr) (record : Record.t) :
  AddressBook.find book name = Some record ->
  show_birthday (name :: rest) book =
    (lit "Birthday of " ++ name ++ lit ": " ++
     match Birthday.value (Record.birthday record) with
     | Some date => date
     | None => lit "None"
     end, book).
Proof.
  intros Hfind. unfold show_birthday, show_birthday_body. rewrite Hfind.
  reflexivity.
Qed.

Lemma show_birthday_of_known_name_witness :
  show_birthday [lit "alice"] (book_of record_without_birthday) =
    (lit "Birthday of " ++ lit "alice" ++ lit ": " ++
     match Birthday.value (Record.birthday record_without_birthday) with
     | Some date => date
     | None => lit "None"
     end, book_of record_without_birthday).
Proof.
  apply (show_birthday_of_known_name (book_of record_without_birthday)
           (lit "alice") [] record_without_birthday).
  reflexivity.
Defined.

(** X19: [change] given a number of arguments other than three, and
    [add-birthday] given a number other than two, answer with the text of
    the [ValueError] of the unpacking ("ValueError: not enough values to
    unpack ..." or "ValueError: too many values to unpack ...") and leave
    the book unchanged; they do not look the name up. *)
Theorem unpacking_handlers_wrong_count (args : list pystr)
  (book : AddressBook.t) :
  (length args <> 3%nat ->
   change_contact args book =
   (lit "ValueError: " ++
    (if (length args <? 3)%nat
     then lit "not enough values to unpack (expected 3, got " ++
          str_of_N (N.of_nat (length args)) ++ lit ")"
     else lit "too many values to unpack (expected 3)"), book)) /\
  (length args <> 2%nat ->
   add_birthday args book =
   (lit "ValueError: " ++
    (if (length args <? 2)%nat
     then lit "not enough values to unpack (expected 2, got " ++
          str_of_N (N.of_nat (length args)) ++ lit ")"
     else lit "too many values to unpack (expected 2)"), book)).
Proof.
  split; intros Hlen.
  - destruct args as [|a [|b [|c [|d rest]]]]; simpl in Hlen; try lia;
      try reflexivity.
    unfold change_contact, change_contact_body, unpack_error.
    replace (N.of_nat (length (a :: b :: c :: d :: rest)) <? 3)%N with false
      by (symmetry; apply N.ltb_ge; simpl length; lia).
    reflexivity.
  - destruct args as [|a [|b [|c rest]]]; simpl in Hlen; try lia;
      try reflexivity.
    unfold add_birthday, add_birthday_body, unpack_error.
    replace (N.of_nat (length (a :: b :: c :: rest)) <? 2)%N with false
      by (symmetry; apply N.ltb_ge; simpl length; lia).
    reflexivity.
Qed.

(** ** The invariant of the book *)

Lemma book_valid_dict_set (book : AddressBook.t) (k : pystr) (v : Record.t) :
  book_valid book ->
  Name.value (Record.name v) = k -> phones_valid v -> birthday_valid v ->
  book_valid (AddressBook.dict_set book k v).
Proof.
  intros [Hnd Hall] Hname Hphones Hbirthday. split.
  - apply dict_set_NoDup, Hnd.
  - clear Hnd. induction book as [|[k0 v0] rest IH]; simpl.
    + constructor; [simpl; tauto | constructor].
    + inversion Hall as [|x l Hhead Htail].
      destruct (str_eqb k0 k) eqn:E.
      * apply str_eqb_eq in E. subst k0.
        constructor; [simpl; tauto | exact Htail].
      * constructor; [exact Hhead | apply IH, Htail].
Qed.

Lemma book_valid_find (book : AddressBook.t) (k : pystr) (r : Record.t) :
  book_valid book -> AddressBook.find book k = Some r ->
  Name.value (Record.name r) = k /\ phones_valid r /\ birthday_valid r.
Proof.
  intros [_ Hall] Hfind. apply dict_get_In in Hfind.
  rewrite List.Forall_forall in Hall. exact (Hall _ Hfind).
Qed.

Lemma add_contact_valid (args : list pystr) (book : AddressBook.t) :
  book_valid book -> book_valid (snd (add_contact args book)).
Proof.
  intros Hvalid. unfold add_contact, add_contact_body.
  destruct args as [|name [|phone rest]]; try exact Hvalid.
  destruct (AddressBook.find book name) as [record|] eqn:Hfind.
  - destruct (book_valid_find _ _ _ Hvalid Hfind) as (Hn & Hp & Hb).
    destruct (str_truthy phone); [|exact Hvalid].
    destruct (Record.add_phone record (VStr phone)) as [record'|e] eqn:Hadd;
      [|exact Hvalid].
    cbn [snd input_error]. apply book_valid_dict_set; try assumption.
    + destruct (add_phone_Ok _ _ _ Hadd) as (s & _ & _ & ->). exact Hn.
    + exact (phones_valid_add_phone _ _ _ Hp Hadd).
    + destruct (add_phone_Ok _ _ _ Hadd) as (s & _ & _ & ->). exact Hb.
  - assert (Hvalid1 : book_valid
                        (AddressBook.add_record book (Record.init name))).
    { apply book_valid_dict_set; [exact Hvalid | reflexivity | constructor
                                 | exact I]. }
    destruct (str_truthy phone); [|exact Hvalid1].
    destruct (Record.add_phone (Record.init name) (VStr phone))
      as [record'|e] eqn:Hadd; [|exact Hvalid1].
    cbn [snd input_error]. apply book_valid_dict_set; try assumption.
    + destruct (add_phone_Ok _ _ _ Hadd) as (s & _ & _ & ->). reflexivity.
    + apply (phones_valid_add_phone (Record.init name) _ _
               ltac:(constructor) Hadd).
    + destruct (add_phone_Ok _ _ _ Hadd) as (s & _ & _ & ->). exact I.
Qed.

Lemma remove_phone_fields (self : Record.t) (number : pystr) :
  Record.name (fst (Record.remove_phone self number)) = Record.name self /\
  Record.birthday (fst (Record.remove_phone self number))
    = Record.birthday self.
Proof.
  unfold Record.remove_phone.
  destruct (Record.remove_in (Record.phones self) number). split; reflexivity.
Qed.

Lemma change_contact_valid (args : list pystr) (book : AddressBook.t) :
  book_valid book -> book_valid (snd (change_contact args book)).
Proof.
  intros Hvalid. unfold change_contact, change_contact_body.
  destruct args as [|name [|old [|new [|x rest]]]]; try exact Hvalid.
  destruct (AddressBook.find book name) as [record|] eqn:Hfind;
    [|exact Hvalid].
  destruct (book_valid_find _ _ _ Hvalid Hfind) as (Hn & Hp & Hb).
  destruct (Record.edit_phone record old (VStr new)) as [record'|e] eqn:Hedit;
    [|exact Hvalid].
  cbn [snd input_error].
  destruct (edit_phone_Ok _ _ _ _ Hedit) as (self1 & Hadd & ->).
  destruct (remove_phone_fields self1 old) as [Hname Hbirthday].
  destruct (add_phone_Ok _ _ _ Hadd) as (s & _ & _ & Hself1).
  apply book_valid_dict_set; [exact Hvalid | | |].
  - rewrite Hname, Hself1. exact Hn.
  - apply phones_valid_remove_phone.
    exact (phones_valid_add_phone _ _ _ Hp Hadd).
  - unfold birthday_valid. rewrite Hbirthday, Hself1. exact Hb.
Qed.

Lemma add_birthday_valid (args : list pystr) (book : AddressBook.t) :
  book_valid book -> book_valid (snd (add_birthday args book)).
Proof.
  intros Hvalid. unfold add_birthday, add_birthday_body.
  destruct args as [|name [|birthday [|x rest]]]; try exact Hvalid.
  destruct (AddressBook.find book name) as [record|] eqn:Hfind;
    [|exact Hvalid].
  destruct (book_valid_find _ _ _ Hvalid Hfind) as (Hn & Hp & Hb).
  destruct (Record.add_birthday record (Some birthday)) as [record'|e]
    eqn:Hadd; [|exact Hvalid].
  cbn [snd input_error].
  destruct (add_birthday_Ok _ _ _ Hadd) as (b & Hinit & ->).
  apply book_valid_dict_set; [exact Hvalid | exact Hn | exact Hp |].
  exact (proj2 (Birthday_init_valid _ _ record Hinit)).
Qed.

Lemma show_phone_book (args : list pystr) (book : AddressBook.t) :
  snd (show_phone args book) = book.
Proof.
  unfold show_phone, show_phone_body. destruct args as [|name rest];
    [reflexivity|]. destruct (AddressBook.find book name); reflexivity.
Qed.

Lemma show_birthday_book (args : list pystr) (book : AddressBook.t) :
  snd (show_birthday args book) = book.
Proof.
  unfold show_birthday, show_birthday_body. destruct args as [|name rest];
    [reflexivity|]. destruct (AddressBook.find book name); reflexivity.
Qed.

Lemma dispatch_valid (now : datetime.t) (command : pystr) (args : list pystr)
  (book book' : AddressBook.t) (text : pystr) :
  book_valid book ->
  dispatch now command args book = Some (text, book') ->
  book_valid book'.
Proof.
  intros Hvalid. unfold dispatch.
  repeat match goal with
         | |- (if ?c then _ else _) = _ -> _ => destruct c
         end;
    intros H; try discriminate H;
    apply (f_equal (option_map snd)) in H; cbn [option_map snd] in H;
    injection H as <-;
    first [ exact Hvalid
          | exact (add_contact_valid args book Hvalid)
          | exact (change_contact_valid args book Hvalid)
          | exact (add_birthday_valid args book Hvalid)
          | exact (eq_ind_r book_valid Hvalid (show_phone_book args book))
          | exact (eq_ind_r book_valid Hvalid (show_birthday_book args book)) ].
Qed.

(** ** Reading a command *)

Lemma split_from_spec (word s : pystr) :
  Forall (fun c => cp_isspace c = false) word ->
  Forall is_token (split_from word s) /\
  concat (split_from word s)
  = rev word ++ List.filter (fun c => negb (cp_isspace c)) s.
Proof.
  revert word. induction s as [|c rest IH]; intros word Hword; simpl.
  - destruct word as [|w word].
    + split; [constructor | reflexivity].
    + split.
      * constructor; [|constructor]. split.
        -- intros Hnil. apply (f_equal (@length _)) in Hnil.
           rewrite List.length_rev in Hnil. discriminate Hnil.
        -- apply Forall_rev, Hword.
      * simpl. rewrite !List.app_nil_r. reflexivity.
  - destruct (cp_isspace c) eqn:Hc; simpl.
    + destruct (IH [] ltac:(constructor)) as [Htok Hcat].
      cbn [rev app] in Hcat.
      destruct word as [|w word].
      * split; [exact Htok | exact Hcat].
      * split.
        -- constructor; [|exact Htok]. split.
           ++ intros Hnil. apply (f_equal (@length _)) in Hnil.
              rewrite List.length_rev in Hnil. discriminate Hnil.
           ++ apply Forall_rev, Hword.
        -- cbn [concat]. rewrite Hcat. reflexivity.
    + destruct (IH (c :: word) ltac:(constructor; assumption)) as [Htok Hcat].
      split; [exact Htok|]. rewrite Hcat. simpl.
      rewrite <- List.app_assoc. reflexivity.
Qed.

Lemma lstrip_token (w : pystr) :
  Forall (fun c => cp_isspace c = false) w -> lstrip w = w.
Proof.
  intros Hw. destruct w as [|c w]; [reflexivity|].
  inversion Hw as [|x l Hc Hrest]. simpl. rewrite Hc. reflexivity.
Qed.

Lemma strip_token (w : pystr) :
  Forall (fun c => cp_isspace c = false) w -> strip w = w.
Proof.
  intros Hw. unfold strip. rewrite (lstrip_token w Hw).
  rewrite (lstrip_token (rev w)) by (apply Forall_rev, Hw).
  apply List.rev_involutive.
Qed.

Lemma split_blank (s : pystr) :
  Forall (fun c => cp_isspace c = true) s -> split s = [].
Proof.
  unfold split. induction s as [|c rest IH]; intros Hs; [reflexivity|].
  inversion Hs as [|x l Hc Hrest]. simpl. rewrite Hc. apply IH, Hrest.
Qed.

Section CommandLoopProperties.
Context (lower : pystr -> pystr).
Context {blob : Type} `{Pickle blob}.

(** X20: the words [split] cuts a line into are never empty and hold no
    whitespace, and put together they are the line without its
    whitespace; so the [strip] of [parse_input] changes nothing, the
    result is the tuple of the first word in lower case and the other
    words as they are, and for a line with no word it is the text
    "ValueError: not enough values to unpack (expected at least 1, got
    0)". *)
Theorem parse_input_words (user_input : pystr) :
  Forall is_token (split user_input) /\
  concat (split user_input)
    = List.filter (fun c => negb (cp_isspace c)) user_input /\
  parse_input lower user_input =
    match split user_input with
    | cmd :: args => Tuple (lower cmd) args
    | [] =>
        Text (lit "ValueError: not enough values to unpack (expected at least 1, got 0)")
    end.
Proof.
  destruct (split_from_spec [] user_input ltac:(constructor)) as [Htok Hcat].
  split; [exact Htok|]. split; [exact Hcat|].
  unfold parse_input. fold (split user_input) in Htok.
  destruct (split user_input) as [|cmd args]; [reflexivity|].
  inversion Htok as [|x l [_ Hcmd] _]. rewrite (strip_token cmd Hcmd).
  reflexivity.
Qed.

Lemma unpack_command_Ok (user_input : pystr) :
  exists command args,
    unpack_command (parse_input lower user_input) = Ok (command, args).
Proof.
  unfold parse_input. destruct (split user_input) as [|cmd args].
  - eexists _, _. reflexivity.
  - eexists _, _. reflexivity.
Qed.

(** X21: no line makes the loop stop on an exception: the loop ends on
    [close] or [exit], or when the input is used up. *)
Theorem main_loop_never_crashes (inputs : list (pystr * datetime.t))
  (book : AddressBook.t) (fs : filesystem blob) (out : list pystr) :
  fst (fst (fst (main_loop lower inputs book fs out))) = GoodBye \/
  fst (fst (fst (main_loop lower inputs book fs out))) = EndOfInput.
Proof.
  revert book out. induction inputs as [|[line now] rest IH]; intros book out.
  - right. reflexivity.
  - simpl. destruct (unpack_command_Ok line) as (command & args & ->).
    destruct (dispatch now command args book) as [[text book']|].
    + apply IH.
    + left. reflexivity.
Qed.

(** X22: a line with no word, the empty line among them, is answered
    with "Invalid command." and the loop goes on with the same book: the
    text of the error of [parse_input] is unpacked as a command, and its
    first character is no command. *)
Theorem blank_line_is_invalid_command (user_input : pystr) (now : datetime.t)
  (rest : list (pystr * datetime.t)) (book : AddressBook.t)
  (fs : filesystem blob) (out : list pystr) :
  Forall (fun c => cp_isspace c = true) user_input ->
  main_loop lower ((user_input, now) :: rest) book fs out =
  main_loop lower rest book fs
    (out ++ [PROMPT; print (lit "Invalid command.")]).
Proof.
  intros Hblank. simpl. unfold parse_input.
  rewrite (split_blank _ Hblank). reflexivity.
Qed.

Lemma main_loop_valid (inputs : list (pystr * datetime.t))
  (book : AddressBook.t) (fs : filesystem blob) (out : list pystr) :
  book_valid book ->
  book_valid (snd (fst (fst (main_loop lower inputs book fs out)))).
Proof.
  revert book out. induction inputs as [|[line now] rest IH];
    intros book out Hvalid.
  - exact Hvalid.
  - simpl. destruct (unpack_command_Ok line) as (command & args & ->).
    destruct (dispatch now command args book) as [[text book']|] eqn:Hd.
    + apply IH. exact (dispatch_valid _ _ _ _ _ _ Hvalid Hd).
    + exact Hvalid.
Qed.

(** X23: started without a saved file, [main] keeps the book valid
    whatever is typed: at the end no name occurs twice, every record
    sits under its own name, every phone is a string of ten digits and
    every birthday is absent, empty or a text that [strptime] reads. *)
Theorem main_keeps_book_valid (inputs : list (pystr * datetime.t))
  (fs : filesystem blob) :
  fs !! DEFAULT_FILENAME = None ->
  book_valid (snd (fst (fst (main lower inputs fs)))).
Proof.
  intros Hnone. unfold main, load_data. rewrite Hnone.
  apply main_loop_valid. split; constructor.
Qed.

Lemma main_loop_files (inputs : list (pystr * datetime.t))
  (book : AddressBook.t) (fs : filesystem blob) (out : list pystr) :
  let '(e, book', fs', _) := main_loop lower inputs book fs out in
  (e = GoodBye /\ fs' = save_data book' DEFAULT_FILENAME fs) \/
  (e = EndOfInput /\ fs' = fs).
Proof.
  revert book out. induction inputs as [|[line now] rest IH]; intros book out.
  - right. split; reflexivity.
  - simpl. destruct (unpack_command_Ok line) as (command & args & ->).
    destruct (dispatch now command args book) as [[text book']|].
    + apply IH.
    + left. split; reflexivity.
Qed.

Hypothesis loads_dumps : forall book, loads (dumps book) = Ok book.

(** X24: the file is written on [close] or [exit] only.  When the loop
    ends so, the file holds the book that was in memory at that moment,
    every other file is as it was, and a later run of [main] starts from
    that book; when the input ends first, no file has changed and what
    was typed is lost. *)
Theorem saved_on_exit_only (inputs : list (pystr * datetime.t))
  (book : AddressBook.t) (fs : filesystem blob) (out : list pystr) :
  let '(e, book', fs', _) := main_loop lower inputs book fs out in
  (e = GoodBye /\
   load_data DEFAULT_FILENAME fs' = Ok book' /\
   (forall other, other <> DEFAULT_FILENAME -> fs' !! other = fs !! other) /\
   (forall later,
      main lower later fs' =
      main_loop lower later book' fs'
        [print (lit "Welcome to the assistant bot!")])) \/
  (e = EndOfInput /\ fs' = fs).
Proof.
  pose proof (main_loop_files inputs book fs out) as Hfiles.
  destruct (main_loop lower inputs book fs out) as [[[e book'] fs'] out'].
  destruct Hfiles as [[-> ->] | [-> ->]]; [left | right; tauto].
  assert (Hload : load_data DEFAULT_FILENAME
                    (save_data book' DEFAULT_FILENAME fs) = Ok book').
  { unfold load_data, save_data. rewrite lookup_insert_eq. apply loads_dumps. }
  split; [reflexivity|]. split; [exact Hload|]. split.
  - intros other Hne. unfold save_data. apply lookup_insert_ne. congruence.
  - intros later. unfold main. rewrite Hload. reflexivity.
Qed.

End CommandLoopProperties.

Lemma main_keeps_book_valid_witness :
  book_valid
    (snd (fst (fst (main ascii_lower add_then_exit
                      (∅ : filesystem (list N)))))).
Proof.
  apply (main_keeps_book_valid ascii_lower (H := length_prefixed)
           add_then_exit ∅).
  reflexivity.
Defined.

Lemma blank_line_is_invalid_command_witness :
  main_loop ascii_lower ((lit "  ", morning_2023_06_10) :: add_then_exit)
    AddressBook.empty (∅ : filesystem (list N)) [] =
  main_loop ascii_lower add_then_exit AddressBook.empty
    (∅ : filesystem (list N))
    ([] ++ [PROMPT; print (lit "Invalid command.")]).
Proof.
  apply (blank_line_is_invalid_command ascii_lower (H := length_prefixed)
           (lit "  ") morning_2023_06_10 add_then_exit AddressBook.empty ∅ []).
  repeat constructor.
Defined.

Lemma saved_on_exit_only_witness :
  let '(e, book', fs', _) :=
    main_loop ascii_lower add_then_exit AddressBook.empty
      (∅ : filesystem (list N)) [] in
  (e = GoodBye /\
   load_data DEFAULT_FILENAME fs' = Ok book' /\
   (forall other, other <> DEFAULT_FILENAME ->
      fs' !! other = (∅ : filesystem (list N)) !! other) /\
   (forall later,
      main ascii_lower later fs' =
      main_loop ascii_lower later book' fs'
        [print (lit "Welcome to the assistant bot!")])) \/
  (e = EndOfInput /\ fs' = (∅ : filesystem (list N))).
Proof.
  apply (saved_on_exit_only ascii_lower (H := length_prefixed)
           length_prefixed_loads_dumps add_then_exit AddressBook.empty ∅ []).
Defined.

(** The two lines run: the contact is added, the book is saved. *)
Example add_then_exit_run :
  main ascii_lower add_then_exit (∅ : filesystem (list N)) =
  (GoodBye,
   book_of record_without_birthday,
   save_data (book_of record_without_birthday) DEFAULT_FILENAME ∅,
   [print (lit "Welcome to the assistant bot!");
    PROMPT; print (lit "Contact added.");
    PROMPT; print (lit "Good bye!")]).
Proof. reflexivity. Qed.

(** The command [all] and [str(book)] give the same lines for a book
    with records; for the empty book each has a sentence of its own. *)
Example show_all_phones_lines :
  show_all_phones AddressBook.empty = lit "No contacts available." /\
  AddressBook_str AddressBook.empty = lit "The address book is empty." /\
  show_all_phones (book_of record_without_birthday)
    = AddressBook_str (book_of record_without_birthday) /\
  show_all_phones (book_of record_without_birthday)
    = lit "Contact name: alice, phones: 1234567890, birthday: None".
Proof. repeat split; reflexivity. Qed.

(** [Birthday.__repr__] has a text for a birthday that is not set; the
    handlers format the field with [str] and never show it. *)
Example Birthday_repr_unset :
  Birthday_repr (Birthday.mk None) = lit "No birthday" /\
  Birthday.str (Birthday.mk None) = lit "None" /\
  Birthday_repr (Birthday.mk (Some (lit "12.06.1990"))) = lit "12.06.1990".
Proof. repeat split; reflexivity. Qed.
